(** * Python helper scripts of the "AI/ML for PHP developers" series

    A shallow embedding of the command-line scripts, the Flask server and the
    Redis worker found under [docs/series/ai-ml-php-developers/code], and the
    properties of their JSON envelope, error reporting and record life cycle.

    Conventions of the embedding:
    - a decoded JSON document is a value of [json]; Python [int] is [Z],
      Python [float] is an IEEE binary64 [float]; a [dict] is an association
      list in insertion order;
    - a Python [str] is a [string] whose characters are code points below 256;
    - an exception derived from [Exception] is a value of [exn]; a piece of
      code ends as a [completion], which keeps [SystemExit] (raised by
      [sys.exit]) and [KeyboardInterrupt] apart from them;
    - built-in and third-party functions ([json.loads], [str()], [float()],
      the arithmetic behind [sum], [/] and [round], scikit-learn, OpenCV,
      ONNX Runtime with numpy, ultralytics, Prophet) are fields of the classes
      [Python], [Sklearn], [Cv2], [Onnx], [Ultralytics] and [Prophet]: only
      the scripts' own code is defined here. Redis is a finite map with a log
      of the [setex] calls, and the clock is read from the input of each
      pass. *)

From Stdlib Require Import ZArith List String Ascii Bool Lia Floats.
From stdpp Require Import gmap strings pretty.
Import ListNotations.
Local Open Scope string_scope.
Local Open Scope Z_scope.
#[local] Set Warnings "-inexact-float".

(** ** Decoded JSON values *)

#[warnings="-register-all"]
Inductive json : Type :=
| JNull
| JBool (b : bool)
| JInt (z : Z)
| JFloat (f : float)
| JStr (s : string)
| JArr (items : list json)
| JObj (fields : list (string * json)).

(** ** Exceptions

    The classes below all derive from [Exception]; [SystemExit] and
    [KeyboardInterrupt], which do not, are kept apart (see [completion]). *)

Inductive exn_class : Type :=
| JSONDecodeError
| ValueError
| TypeError
| AttributeError
| KeyError
| IndexError
| FileNotFoundError
| OverflowError
| LibraryError (name : string).

Record exn : Type := Exn { exn_cls : exn_class; exn_msg : string }.

(** [isinstance(e, json.JSONDecodeError)] *)
Definition is_JSONDecodeError (e : exn) : bool :=
  match exn_cls e with
  | JSONDecodeError => true
  | _ => false
  end.

(** [type(e).__name__] *)
Definition class_name (c : exn_class) : string :=
  match c with
  | JSONDecodeError => "JSONDecodeError"
  | ValueError => "ValueError"
  | TypeError => "TypeError"
  | AttributeError => "AttributeError"
  | KeyError => "KeyError"
  | IndexError => "IndexError"
  | FileNotFoundError => "FileNotFoundError"
  | OverflowError => "OverflowError"
  | LibraryError name => name
  end.

(** ** Results of pure Python operations and of library calls *)

Inductive res (A : Type) : Type :=
| Ok (a : A)
| Raise (e : exn).
Arguments Ok {A} a.
Arguments Raise {A} e.

Definition res_bind {A B : Type} (m : res A) (k : A -> res B) : res B :=
  match m with
  | Ok a => k a
  | Raise e => Raise e
  end.

(** ** Python operations on decoded values *)

Definition type_name (v : json) : string :=
  match v with
  | JNull => "NoneType"
  | JBool _ => "bool"
  | JInt _ => "int"
  | JFloat _ => "float"
  | JStr _ => "str"
  | JArr _ => "list"
  | JObj _ => "dict"
  end.

Fixpoint assoc (k : string) (fields : list (string * json)) : option json :=
  match fields with
  | [] => None
  | (k', v) :: rest => if String.eqb k k' then Some v else assoc k rest
  end.

(** [d[k] = v] on a dict: replaces the value in place, or appends the key. *)
Fixpoint assoc_set (k : string) (v : json) (fields : list (string * json))
  : list (string * json) :=
  match fields with
  | [] => [(k, v)]
  | (k', v') :: rest =>
      if String.eqb k k' then (k', v) :: rest else (k', v') :: assoc_set k v rest
  end.

(** Truth value of an object, as tested by [not x] and [if x]. *)
Definition truthy (v : json) : bool :=
  match v with
  | JNull => false
  | JBool b => b
  | JInt z => negb (z =? 0)
  | JFloat f => negb (PrimFloat.eqb f 0%float)
  | JStr s => negb (String.eqb s "")
  | JArr items => match items with [] => false | _ => true end
  | JObj fields => match fields with [] => false | _ => true end
  end.

Definition no_attribute (v : json) (attr : string) : exn :=
  Exn AttributeError
      ("'" ++ type_name v ++ "' object has no attribute '" ++ attr ++ "'").

(** [v.get(key, default)] *)
Definition py_get (v : json) (key : string) (default : json) : res json :=
  match v with
  | JObj fields =>
      Ok (match assoc key fields with Some x => x | None => default end)
  | _ => Raise (no_attribute v "get")
  end.

(** [v[key]] with a string key *)
Definition py_getitem (v : json) (key : string) : res json :=
  match v with
  | JObj fields =>
      match assoc key fields with
      | Some x => Ok x
      | None => Raise (Exn KeyError ("'" ++ key ++ "'"))
      end
  | JArr _ =>
      Raise (Exn TypeError "list indices must be integers or slices, not str")
  | JStr _ => Raise (Exn TypeError "string indices must be integers, not 'str'")
  | _ =>
      Raise (Exn TypeError ("'" ++ type_name v ++ "' object is not subscriptable"))
  end.

(** [v[key] = x] with a string key *)
Definition py_setitem (v : json) (key : string) (x : json) : res json :=
  match v with
  | JObj fields => Ok (JObj (assoc_set key x fields))
  | JArr _ =>
      Raise (Exn TypeError "list indices must be integers or slices, not str")
  | _ =>
      Raise (Exn TypeError
               ("'" ++ type_name v ++ "' object does not support item assignment"))
  end.

(** [needle in hay] on strings: substring search. *)
Fixpoint contains (needle hay : string) : bool :=
  String.prefix needle hay
  || match hay with
     | EmptyString => false
     | String _ rest => contains needle rest
     end.

Definition is_str (s : string) (v : json) : bool :=
  match v with
  | JStr s' => String.eqb s s'
  | _ => false
  end.

(** [key in v] with a string key *)
Definition py_in (key : string) (v : json) : res bool :=
  match v with
  | JObj fields => Ok (match assoc key fields with Some _ => true | None => false end)
  | JArr items => Ok (existsb (is_str key) items)
  | JStr s => Ok (contains key s)
  | _ =>
      Raise (Exn TypeError ("argument of type '" ++ type_name v ++ "' is not iterable"))
  end.

(** [str.isspace] on one character (code points below 256). *)
Definition is_space (c : ascii) : bool :=
  let n := N_of_ascii c in
  ((9 <=? n) && (n <=? 13) || (28 <=? n) && (n <=? 32)
   || (n =? 133) || (n =? 160))%N.

(** [s.strip()] is empty exactly when every character is white space. *)
Fixpoint all_space (s : string) : bool :=
  match s with
  | EmptyString => true
  | String c rest => is_space c && all_space rest
  end.

(** [not v.strip()] *)
Definition strip_is_empty (v : json) : res bool :=
  match v with
  | JStr s => Ok (all_space s)
  | _ => Raise (no_attribute v "strip")
  end.

(** [str.lower] on one character (code points below 256). *)
Definition lower_char (c : ascii) : ascii :=
  let n := N_of_ascii c in
  if ((65 <=? n) && (n <=? 90)
      || (192 <=? n) && (n <=? 222) && negb (n =? 215))%N
  then ascii_of_N (n + 32) else c.

Fixpoint lower (s : string) : string :=
  match s with
  | EmptyString => EmptyString
  | String c rest => String (lower_char c) (lower rest)
  end.

(** Conversion of a Python [int] to a [float]: round to nearest, ties to even. *)
Definition Z2float (z : Z) : float :=
  SF2Prim (binary_normalize prec emax z 0 false).

(** [min(a, b)] on floats: the first argument unless the second is smaller. *)
Definition py_min (a b : float) : float :=
  if PrimFloat.ltb b a then b else a.

(** ** Processes: standard output, library calls, exceptions *)

(** A call into the sentiment model, recorded in the order it is made. *)
Inductive call : Type :=
| CallLoadModel
| CallTransform (texts : list json)
| CallPredict
| CallPredictProba.

(** [stdout] holds the documents given to [print(json.dumps(...))], oldest
    first. *)
Record world : Type := World { stdout : list json; calls : list call }.

(** How a piece of Python code ends: with a value, with an exception derived
    from [Exception], with [SystemExit] or with [KeyboardInterrupt]. *)
Inductive completion (A : Type) : Type :=
| Done (a : A)
| Raised (e : exn)
| SystemExit (code : Z)
| KeyboardInterrupt.
Arguments Done {A} a.
Arguments Raised {A} e.
Arguments SystemExit {A} code.
Arguments KeyboardInterrupt {A}.

(** A program over a state [S]: it leaves a state behind however it ends. *)
Definition prog (S A : Type) : Type := S -> completion A * S.

Definition script (A : Type) : Type := prog world A.

Definition ret {S A : Type} (a : A) : prog S A := fun w => (Done a, w).

Definition bind {S A B : Type} (m : prog S A) (k : A -> prog S B) : prog S B :=
  fun w =>
    match m w with
    | (Done a, w') => k a w'
    | (Raised e, w') => (Raised e, w')
    | (SystemExit code, w') => (SystemExit code, w')
    | (KeyboardInterrupt, w') => (KeyboardInterrupt, w')
    end.

Notation "'let*' x ':=' m 'in' k" := (bind m (fun x => k))
  (at level 10, x name, m at level 100, k at level 200).
Notation "m '>>' k" := (bind m (fun _ => k))
  (at level 90, right associativity).

Definition raise {S A : Type} (e : exn) : prog S A := fun w => (Raised e, w).

(** A pure operation or a library call inside a program. *)
Definition lift {S A : Type} (r : res A) : prog S A :=
  match r with
  | Ok a => ret a
  | Raise e => raise e
  end.

(** [print(json.dumps(doc))] *)
Definition print (doc : json) : script unit :=
  fun w => (Done tt, World (stdout w ++ [doc]) (calls w)).

(** [sys.exit(code)] *)
Definition sys_exit {S A : Type} (code : Z) : prog S A :=
  fun w => (SystemExit code, w).

Definition record_call (c : call) : script unit :=
  fun w => (Done tt, World (stdout w) (calls w ++ [c])).

(** The [except] clauses the scripts use. *)
Inductive clause (S A : Type) : Type :=
| ExceptJSONDecodeError (handler : exn -> prog S A)
| ExceptException (handler : exn -> prog S A)
| ExceptKeyboardInterrupt (handler : prog S A).
Arguments ExceptJSONDecodeError {S A} handler.
Arguments ExceptException {S A} handler.
Arguments ExceptKeyboardInterrupt {S A} handler.

(** The handler a clause offers for the way the [try] body ended, if any. *)
Definition clause_handler {S A : Type} (c : clause S A) (ended : completion A)
  : option (prog S A) :=
  match c, ended with
  | ExceptJSONDecodeError handler, Raised e =>
      if is_JSONDecodeError e then Some (handler e) else None
  | ExceptException handler, Raised e => Some (handler e)
  | ExceptKeyboardInterrupt handler, KeyboardInterrupt => Some handler
  | _, _ => None
  end.

Fixpoint select_handler {S A : Type} (clauses : list (clause S A))
  (ended : completion A) : option (prog S A) :=
  match clauses with
  | [] => None
  | c :: rest =>
      match clause_handler c ended with
      | Some handler => Some handler
      | None => select_handler rest ended
      end
  end.

(** [try: body / except ...: / except ...:]: the first clause whose class
    matches handles the exception; what a handler raises is not offered to
    the later clauses. *)
Definition try_except {S A : Type} (body : prog S A) (clauses : list (clause S A))
  : prog S A :=
  fun w =>
    let '(ended, w') := body w in
    match select_handler clauses ended with
    | Some handler => handler w'
    | None => (ended, w')
    end.

(** What the calling process observes when the interpreter ends. *)
Record outcome : Type := Outcome {
  printed : list json;
  made_calls : list call;
  exit_code : Z;
  traceback : option string
}.

(** Running the script: a normal return exits with 0, [SystemExit] with its
    code; an exception nobody caught leaves the interpreter with a traceback on
    stderr and exit code 1 (130 after Ctrl-C). *)
Definition run_main (main : script unit) : outcome :=
  match main (World [] []) with
  | (Done _, w) => Outcome (stdout w) (calls w) 0 None
  | (SystemExit code, w) => Outcome (stdout w) (calls w) code None
  | (Raised e, w) => Outcome (stdout w) (calls w) 1 (Some (class_name (exn_cls e)))
  | (KeyboardInterrupt, w) => Outcome (stdout w) (calls w) 130 (Some "KeyboardInterrupt")
  end.

(** [sys.argv[1]] *)
Definition argv1 (argv : list string) : string := nth 1%nat argv "".

Definition has_key (key : string) (doc : json) : bool :=
  match doc with
  | JObj fields => match assoc key fields with Some _ => true | None => false end
  | _ => false
  end.

(** The error envelope: one JSON object with an [error] key was printed and
    the process ended with a non-zero exit code, without a traceback. *)
Definition reports_error (o : outcome) : Prop :=
  (exists doc, printed o = [doc] /\ has_key "error" doc = true)
  /\ exit_code o <> 0 /\ traceback o = None.

(** ** The JSON command-line scripts of chapter 11 *)

(** The double quote character, for messages that quote a field name. *)
Definition dquote : string := String (ascii_of_nat 34) EmptyString.

Inductive number : Type :=
| NInt (z : Z)
| NFloat (f : float).

Definition number_json (n : number) : json :=
  match n with
  | NInt z => JInt z
  | NFloat f => JFloat f
  end.

(** [n > k] for an [int] literal [k]. *)
Definition py_gt (n : number) (k : Z) : bool :=
  match n with
  | NInt z => k <? z
  | NFloat f => PrimFloat.ltb (Z2float k) f
  end.

(** [for x in v]: the items of a list, the keys of a dict, the characters of
    a string. *)
Definition py_iter (v : json) : res (list json) :=
  match v with
  | JArr items => Ok items
  | JObj fields => Ok (map (fun kv => JStr (fst kv)) fields)
  | JStr s => Ok (map (fun c => JStr (String c EmptyString)) (list_ascii_of_string s))
  | _ =>
      Raise (Exn TypeError ("'" ++ type_name v ++ "' object is not iterable"))
  end.

(** [v.lower()] *)
Definition py_lower (v : json) : res string :=
  match v with
  | JStr s => Ok (lower s)
  | _ => Raise (no_attribute v "lower")
  end.

(** *** quick_sentiment.py: analyze_sentiment *)

Definition positive_words : list string :=
  ["amazing"; "excellent"; "great"; "love"; "recommend";
   "fantastic"; "wonderful"; "perfect"; "best"; "awesome"].

Definition negative_words : list string :=
  ["terrible"; "awful"; "hate"; "worst"; "disappointing";
   "horrible"; "bad"; "poor"; "waste"; "useless"].

(** [sum(1 for word in words if word in text_lower)] *)
Definition count_words (words : list string) (text_lower : string) : Z :=
  Z.of_nat (List.length (List.filter (fun word => contains word text_lower) words)).

(** [min(0.85 + (count * 0.05), 0.99)] *)
Definition keyword_confidence (count : Z) : float :=
  py_min (0.85 + Z2float count * 0.05)%float 0.99%float.

Definition analyze_sentiment (text : json) : res json :=
  res_bind (py_lower text) (fun text_lower =>
  let positive_count := count_words positive_words text_lower in
  let negative_count := count_words negative_words text_lower in
  if negative_count <? positive_count then
    Ok (JObj [("sentiment", JStr "positive");
              ("confidence", JFloat (keyword_confidence positive_count))])
  else if positive_count <? negative_count then
    Ok (JObj [("sentiment", JStr "negative");
              ("confidence", JFloat (keyword_confidence negative_count))])
  else
    Ok (JObj [("sentiment", JStr "neutral");
              ("confidence", JFloat 0.60%float)])).

(** *** process.py: generate_recommendations *)

Definition recommendations_table : list (string * list string) :=
  [("VIP", ["Premium Bundle"; "Exclusive Access"; "Priority Support"]);
   ("Regular", ["Popular Items"; "Seasonal Deals"; "Member Benefits"]);
   ("New", ["Starter Pack"; "Welcome Offer"; "Getting Started Guide"])].

Fixpoint table_get (segment : string) (table : list (string * list string))
  : list string :=
  match table with
  | [] => []
  | (k, v) :: rest => if String.eqb segment k then v else table_get segment rest
  end.

Definition generate_recommendations (segment : string) : list string :=
  table_get segment recommendations_table.

(** The [if / elif / else] of process_user_data that classifies the user. *)
Definition classify_segment (total_spent : number) (n_purchases : Z) : string :=
  if py_gt total_spent 1000 && (10 <? n_purchases) then "VIP"
  else if py_gt total_spent 500 then "Regular"
  else "New".

(** *** The scikit-learn objects restored by [joblib.load] *)

Record vectorizer (features : Type) : Type := Vectorizer {
  (* vectorizer.transform(texts) *)
  v_transform : list json -> res features
}.
Arguments Vectorizer {features} _.
Arguments v_transform {features} _ _.

Record classifier (features : Type) : Type := Classifier {
  (* classifier.predict(X), one label per row *)
  c_predict : features -> res (list json);
  (* classifier.predict_proba(X), one row of probabilities per row *)
  c_predict_proba : features -> res (list (list float));
  (* classifier.classes_ *)
  c_classes : list string
}.
Arguments Classifier {features} _ _ _.
Arguments c_predict {features} _ _.
Arguments c_predict_proba {features} _ _.
Arguments c_classes {features} _.

(** [seq[0]] *)
Definition first_item {A : Type} (l : list A) : res A :=
  match l with
  | x :: _ => Ok x
  | [] => Raise (Exn IndexError "index 0 is out of bounds for axis 0 with size 0")
  end.

(** [{cls: float(prob) for cls, prob in zip(classes, probabilities)}] *)
Definition confidence_scores (classes : list string) (probabilities : list float)
  : json :=
  JObj (fold_left (fun d cp => assoc_set (fst cp) (JFloat (snd cp)) d)
                  (combine classes probabilities) []).

(** The Python built-ins the scripts rely on. *)
Class Python : Type := {
  (* json.loads *)
  json_loads : string -> res json;
  (* str(v), as used by f-strings *)
  py_str : json -> string;
  (* acc + x, as built-in sum accumulates numbers *)
  py_add : number -> json -> res number;
  (* x / n with an int divisor *)
  py_truediv : number -> Z -> res number;
  (* round(x, 2) *)
  py_round2 : number -> number;
  (* float(s) and int(s) on a command-line argument *)
  py_float : string -> res float;
  py_int : string -> res Z
}.

(** The scikit-learn installation and the files under [models/]. *)
Class Sklearn : Type := {
  features : Type;
  (* float(row.max()) on a row of probabilities *)
  row_max : list float -> res float;
  (* Path(...).exists() for the two pickles *)
  model_path_exists : bool;
  vectorizer_path_exists : bool;
  (* joblib.load of the two pickles *)
  joblib_load_model : res (classifier features);
  joblib_load_vectorizer : res (vectorizer features)
}.

Section Chapter11.

Context `{Python} `{Sklearn}.

(** **** 01-simple-shell/hello.py *)

Definition hello_main (argv : list string) : script unit :=
  if (List.length argv <? 2)%nat then
    print (JObj [("error", JStr "No data provided")]) >>
    sys_exit 1
  else
    try_except
      (let* input_data := lift (json_loads (argv1 argv)) in
       let* name := lift (py_get input_data "name" (JStr "World")) in
       let result :=
         JObj [("greeting", JStr ("Hello, " ++ py_str name ++ "!"));
               ("processed_by", JStr "Python 3");
               ("input_received", input_data)] in
       print result)
      [ExceptJSONDecodeError (fun e =>
          print (JObj [("error", JStr ("Invalid JSON: " ++ exn_msg e))]) >>
          sys_exit 1)].

(** **** quick_sentiment.py *)

Definition quick_sentiment_main (argv : list string) : script unit :=
  try_except
    ((if (List.length argv <? 2)%nat then
        print (JObj [("error", JStr "No data provided")]) >>
        sys_exit 1
      else ret tt) >>
     let* input_data := lift (json_loads (argv1 argv)) in
     let* has_text := lift (py_in "text" input_data) in
     (if negb has_text then
        print (JObj [("error", JStr ("Missing " ++ dquote ++ "text" ++ dquote ++ " field"))]) >>
        sys_exit 1
      else ret tt) >>
     let* text := lift (py_getitem input_data "text") in
     let* blank :=
       (if negb (truthy text) then ret true else lift (strip_is_empty text)) in
     (if blank then
        print (JObj [("error", JStr "Text cannot be empty")]) >>
        sys_exit 1
      else ret tt) >>
     let* result := lift (analyze_sentiment text) in
     print result)
    [ExceptJSONDecodeError (fun e =>
        print (JObj [("error", JStr ("Invalid JSON: " ++ exn_msg e))]) >>
        sys_exit 1);
     ExceptException (fun e =>
        print (JObj [("error", JStr (exn_msg e))]) >>
        sys_exit 1)].

(** **** 02-data-passing/process.py *)

(** [sum(p.get('amount', 0) for p in purchases)]: the generator is consumed
    one purchase at a time, starting from the [int] 0. *)
Fixpoint sum_amounts (acc : number) (purchases : list json) : res number :=
  match purchases with
  | [] => Ok acc
  | p :: rest =>
      res_bind (py_get p "amount" (JInt 0)) (fun amount =>
      res_bind (py_add acc amount) (fun acc' =>
      sum_amounts acc' rest))
  end.

Definition process_user_data (user : json) : res json :=
  res_bind (py_get user "name" (JStr "Unknown")) (fun name =>
  res_bind (py_get user "age" (JInt 0)) (fun age =>
  res_bind (py_get user "purchases" (JArr [])) (fun purchases =>
  res_bind (py_iter purchases) (fun items =>
  res_bind (sum_amounts (NInt 0) items) (fun total_spent =>
  let n_purchases := Z.of_nat (List.length items) in
  res_bind (if truthy purchases then py_truediv total_spent n_purchases
            else Ok (NInt 0)) (fun avg_purchase =>
  let segment := classify_segment total_spent n_purchases in
  res_bind (py_get user "id" JNull) (fun user_id =>
  Ok (JObj [("user_id", user_id);
            ("name", name);
            ("segment", JStr segment);
            ("metrics",
              JObj [("total_purchases", JInt n_purchases);
                    ("total_spent", number_json (py_round2 total_spent));
                    ("avg_purchase_value", number_json (py_round2 avg_purchase))]);
            ("recommendations",
              JArr (map JStr (generate_recommendations segment)))])))))))).

(** [[process_user_data(user) for user in input_data]] *)
Fixpoint process_batch (users : list json) : res (list json) :=
  match users with
  | [] => Ok []
  | user :: rest =>
      res_bind (process_user_data user) (fun r =>
      res_bind (process_batch rest) (fun rs =>
      Ok (r :: rs)))
  end.

Definition report_with_type (e : exn) : script unit :=
  let error_result :=
    JObj [("error", JStr (exn_msg e));
          ("type", JStr (class_name (exn_cls e)))] in
  print error_result >>
  sys_exit 1.

Definition process_main (argv : list string) : script unit :=
  try_except
    ((if (List.length argv <? 2)%nat then
        raise (Exn ValueError "No input data provided")
      else ret tt) >>
     let* input_data := lift (json_loads (argv1 argv)) in
     let* result :=
       match input_data with
       | JObj _ => lift (process_user_data input_data)
       | JArr users => lift (res_bind (process_batch users) (fun rs => Ok (JArr rs)))
       | _ => raise (Exn ValueError "Input must be object or array")
       end in
     print result)
    [ExceptException report_with_type].

(** **** 03-sentiment-analysis/predict.py *)

Definition load_model : script (classifier features * vectorizer features) :=
  record_call CallLoadModel >>
  (if negb model_path_exists || negb vectorizer_path_exists then
     raise (Exn FileNotFoundError
              "Model files not found in models. Run train_model.py first.")
   else ret tt) >>
  let* clf := lift joblib_load_model in
  let* vec := lift joblib_load_vectorizer in
  ret (clf, vec).

Definition predict_sentiment (text : json)
  (clf : classifier features) (vec : vectorizer features) : script json :=
  let* text_vec := record_call (CallTransform [text]) >>
                   lift (v_transform vec [text]) in
  let* predictions := record_call CallPredict >> lift (c_predict clf text_vec) in
  let* prediction := lift (first_item predictions) in
  let* all_probabilities := record_call CallPredictProba >>
                            lift (c_predict_proba clf text_vec) in
  let* probabilities := lift (first_item all_probabilities) in
  let classes := c_classes clf in
  let scores := confidence_scores classes probabilities in
  let* confidence := lift (row_max probabilities) in
  ret (JObj [("text", text);
             ("sentiment", prediction);
             ("confidence", JFloat confidence);
             ("all_scores", scores)]).

Definition predict_main (argv : list string) : script unit :=
  try_except
    ((if (List.length argv <? 2)%nat then
        raise (Exn ValueError "No input data provided")
      else ret tt) >>
     let* input_data := lift (json_loads (argv1 argv)) in
     let* text := lift (py_get input_data "text" (JStr "")) in
     (if negb (truthy text) then
        raise (Exn ValueError "Text field is required")
      else ret tt) >>
     let* model := load_model in
     let* result := predict_sentiment text (fst model) (snd model) in
     print result)
    [ExceptException report_with_type].

(** **** 04-rest-api-example/flask_server.py *)

(** The module globals [classifier] and [vectorizer]: [None] until
    [load_models()] has run. *)
Record server : Type := Server {
  srv_classifier : option (classifier features);
  srv_vectorizer : option (vectorizer features)
}.

(** A view's return value: [jsonify(body), status]. *)
Record response : Type := Response { resp_body : json; resp_status : Z }.

Definition none_has_no (attr : string) : exn :=
  Exn AttributeError ("'NoneType' object has no attribute '" ++ attr ++ "'").

(** [vectorizer.transform(texts)] *)
Definition srv_transform (srv : server) (texts : list json) : script features :=
  match srv_vectorizer srv with
  | None => raise (none_has_no "transform")
  | Some vec => record_call (CallTransform texts) >> lift (v_transform vec texts)
  end.

(** [classifier.predict(X)] *)
Definition srv_predict (srv : server) (X : features) : script (list json) :=
  match srv_classifier srv with
  | None => raise (none_has_no "predict")
  | Some clf => record_call CallPredict >> lift (c_predict clf X)
  end.

(** [classifier.predict_proba(X)] *)
Definition srv_predict_proba (srv : server) (X : features)
  : script (list (list float)) :=
  match srv_classifier srv with
  | None => raise (none_has_no "predict_proba")
  | Some clf => record_call CallPredictProba >> lift (c_predict_proba clf X)
  end.

(** [classifier.classes_] *)
Definition srv_classes (srv : server) : script (list string) :=
  match srv_classifier srv with
  | None => raise (none_has_no "classes_")
  | Some clf => ret (c_classes clf)
  end.

Definition error_response (message : string) (status : Z) : response :=
  Response (JObj [("error", JStr message)]) status.

(** [not data or key not in data] *)
Definition lacks_key (data : json) (key : string) : script bool :=
  if negb (truthy data) then ret true
  else let* present := lift (py_in key data) in ret (negb present).

(** [POST /predict]; [get_json] is what [request.get_json()] does for the
    request at hand. *)
Definition predict (srv : server) (get_json : res json) : script response :=
  try_except
    (let* data := lift get_json in
     let* missing := lacks_key data "text" in
     if missing then
       ret (error_response ("Missing " ++ dquote ++ "text" ++ dquote ++ " field") 400)
     else
     let* text := lift (py_getitem data "text") in
     let* blank :=
       (if negb (truthy text) then ret true else lift (strip_is_empty text)) in
     if blank then ret (error_response "Text cannot be empty" 400)
     else
     let* text_vec := srv_transform srv [text] in
     let* predictions := srv_predict srv text_vec in
     let* prediction := lift (first_item predictions) in
     let* all_probabilities := srv_predict_proba srv text_vec in
     let* probabilities := lift (first_item all_probabilities) in
     let* classes := srv_classes srv in
     let scores := confidence_scores classes probabilities in
     let* confidence := lift (row_max probabilities) in
     ret (Response (JObj [("text", text);
                          ("sentiment", prediction);
                          ("confidence", JFloat confidence);
                          ("all_scores", scores)]) 200))
    [ExceptException (fun e => ret (error_response (exn_msg e) 500))].

(** The loop over [zip(texts, predictions, probabilities)]. *)
Fixpoint batch_results (texts predictions : list json)
  (probabilities : list (list float)) : res (list json) :=
  match texts, predictions, probabilities with
  | text :: texts', pred :: predictions', probs :: probabilities' =>
      res_bind (row_max probs) (fun confidence =>
      res_bind (batch_results texts' predictions' probabilities') (fun rest =>
      Ok (JObj [("text", text);
                ("sentiment", pred);
                ("confidence", JFloat confidence)] :: rest)))
  | _, _, _ => Ok []
  end.

(** [POST /predict/batch] *)
Definition predict_batch (srv : server) (get_json : res json) : script response :=
  try_except
    (let* data := lift get_json in
     let* missing := lacks_key data "texts" in
     if missing then
       ret (error_response ("Missing " ++ dquote ++ "texts" ++ dquote ++ " array") 400)
     else
     let* texts := lift (py_getitem data "texts") in
     match texts with
     | JArr items =>
         let* texts_vec := srv_transform srv items in
         let* predictions := srv_predict srv texts_vec in
         let* probabilities := srv_predict_proba srv texts_vec in
         let* results := lift (batch_results items predictions probabilities) in
         ret (Response (JObj [("predictions", JArr results)]) 200)
     | _ =>
         ret (error_response (dquote ++ "texts" ++ dquote ++ " must be an array") 400)
     end)
    [ExceptException (fun e => ret (error_response (exn_msg e) 500))].

(** Serving one request from a fresh log of model calls. *)
Definition serve (view : script response) : completion response * list call :=
  let '(r, w) := view (World [] []) in (r, calls w).

(** **** 05-production-patterns/worker.py *)

(** The module globals [SENTIMENT_MODEL] and [SENTIMENT_VECTORIZER]: [None]
    when the pickle is absent. *)
Record worker_model : Type := WorkerModel {
  SENTIMENT_MODEL : option (classifier features);
  SENTIMENT_VECTORIZER : option (vectorizer features)
}.

Definition process_sentiment_analysis (wm : worker_model) (data : json) : res json :=
  res_bind (py_get data "text" (JStr "")) (fun text =>
  match SENTIMENT_MODEL wm, SENTIMENT_VECTORIZER wm with
  | Some clf, Some vec =>
      res_bind (v_transform vec [text]) (fun text_vec =>
      res_bind (c_predict clf text_vec) (fun predictions =>
      res_bind (first_item predictions) (fun prediction =>
      res_bind (c_predict_proba clf text_vec) (fun all_probabilities =>
      res_bind (first_item all_probabilities) (fun probabilities =>
      res_bind (row_max probabilities) (fun confidence =>
      Ok (JObj [("text", text);
                ("sentiment", prediction);
                ("confidence", JFloat confidence)])))))))
  | _, _ =>
      Ok (JObj [("text", text);
                ("sentiment", JStr "positive");
                ("confidence", JFloat 0.85%float);
                ("note", JStr "Simulated (model not loaded)")])
  end).

Definition process_task (wm : worker_model) (task : json) : res json :=
  res_bind (py_getitem task "type") (fun task_type =>
  res_bind (py_getitem task "data") (fun data =>
  if is_str "sentiment_analysis" task_type then
    process_sentiment_analysis wm data
  else if is_str "image_classification" task_type then
    Ok (JObj [("label", JStr "cat"); ("confidence", JFloat 0.92%float)])
  else
    Raise (Exn ValueError ("Unknown task type: " ++ py_str task_type)))).

(** One [r.setex(key, ttl, value)]; the value is the document given to
    [json.dumps]. *)
Record setex_call : Type := Setex {
  setex_key : string;
  setex_ttl : Z;
  setex_value : json
}.

(** What the loop of [main()] works on: the Redis list [ml_tasks] (next
    payload to pop first), the Redis keys with their expiry, the [setex] calls
    made so far, and the local variables [task] and [task_id], which live
    across iterations and are unbound until first assigned. *)
Record worker_state : Type := WorkerState {
  ml_tasks : list string;
  redis : gmap string (Z * json);
  setex_log : list setex_call;
  var_task : option json;
  var_task_id : option json
}.

Definition worker (A : Type) : Type := prog worker_state A.

(** [r.brpop('ml_tasks', timeout=1)]: the payload, or [None] on timeout;
    [ctrl_c] tells whether the operator interrupts the worker while it waits. *)
Definition brpop (ctrl_c : bool) : worker (option string) :=
  fun st =>
    if ctrl_c then (KeyboardInterrupt, st)
    else
      match ml_tasks st with
      | [] => (Done None, st)
      | payload :: rest =>
          (Done (Some payload),
           WorkerState rest (redis st) (setex_log st) (var_task st) (var_task_id st))
      end.

Definition setex (key : string) (ttl : Z) (value : json) : worker unit :=
  fun st =>
    (Done tt,
     WorkerState (ml_tasks st) (<[key := (ttl, value)]> (redis st))
                 (setex_log st ++ [Setex key ttl value])
                 (var_task st) (var_task_id st)).

Definition assign_task (v : json) : worker unit :=
  fun st =>
    (Done tt,
     WorkerState (ml_tasks st) (redis st) (setex_log st) (Some v) (var_task_id st)).

Definition assign_task_id (v : json) : worker unit :=
  fun st =>
    (Done tt,
     WorkerState (ml_tasks st) (redis st) (setex_log st) (var_task st) (Some v)).

Definition unbound_local (name : string) : exn :=
  Exn (LibraryError "UnboundLocalError")
      ("cannot access local variable '" ++ name
       ++ "' where it is not associated with a value").

(** Reading the local variable [task]. *)
Definition read_task : worker json :=
  fun st =>
    match var_task st with
    | Some v => (Done v, st)
    | None => (Raised (unbound_local "task"), st)
    end.

(** Reading the local variable [task_id]. *)
Definition read_task_id : worker json :=
  fun st =>
    match var_task_id st with
    | Some v => (Done v, st)
    | None => (Raised (unbound_local "task_id"), st)
    end.

(** ['task_id' in locals()] *)
Definition task_id_in_locals : worker bool :=
  fun st =>
    (Done (match var_task_id st with Some _ => true | None => false end), st).

(** [task[key] = value]: the dict bound to [task] is changed in place. *)
Definition task_setitem (key : string) (value : json) : worker unit :=
  let* task := read_task in
  let* task' := lift (py_setitem task key value) in
  assign_task task'.

(** [r.setex(f"task:{task_id}", 3600, json.dumps(task))] *)
Definition store_task : worker unit :=
  let* task_id := read_task_id in
  let* task := read_task in
  setex ("task:" ++ py_str task_id) 3600 task.

(** How one pass through the body of [while True] ends. *)
Inductive loop_control : Type :=
| Continue
| Break.

(** What one pass through the loop meets: whether the operator presses
    Ctrl-C while the worker waits, and the two readings of [int(time.time())]. *)
Record pass : Type := Pass { ctrl_c : bool; started : Z; completed : Z }.

(** The body of [while True]. *)
Definition worker_iteration (wm : worker_model) (p : pass) : worker loop_control :=
  try_except
    (let* task_data := brpop (ctrl_c p) in
     match task_data with
     | None => ret Continue
     | Some payload =>
         let* decoded := lift (json_loads payload) in
         assign_task decoded >>
         let* id := lift (py_getitem decoded "id") in
         assign_task_id id >>
         (* print(f"Received task {task_id} ({task['type']})") *)
         let* _ := lift (py_getitem decoded "type") in
         task_setitem "status" (JStr "processing") >>
         task_setitem "started_at" (JInt (started p)) >>
         store_task >>
         let* task := read_task in
         let* result := lift (process_task wm task) in
         let* task_id := read_task_id in
         setex ("result:" ++ py_str task_id) 3600 result >>
         task_setitem "status" (JStr "completed") >>
         task_setitem "completed_at" (JInt (completed p)) >>
         store_task >>
         ret Continue
     end)
    [ExceptKeyboardInterrupt (ret Break);
     ExceptException (fun e =>
        let* known := task_id_in_locals in
        if known then
          task_setitem "status" (JStr "failed") >>
          task_setitem "error" (JStr (exn_msg e)) >>
          store_task >>
          ret Continue
        else ret Continue)].

(** The loop of [main()], run for the given passes. *)
Fixpoint worker_loop (wm : worker_model) (passes : list pass) : worker unit :=
  match passes with
  | [] => ret tt
  | p :: passes' =>
      let* control := worker_iteration wm p in
      match control with
      | Continue => worker_loop wm passes'
      | Break => ret tt
      end
  end.

(** The worker right after connecting: nothing stored by it yet, no local
    variable bound. *)
Definition worker_start (payloads : list string) : worker_state :=
  WorkerState payloads ∅ [] None None.

End Chapter11.

(** ** chapter-18/detect_opencv.py *)

(** What the script uses of OpenCV. *)
Class Cv2 : Type := {
  image : Type;
  cascade : Type;
  (* cv2.imread(path): None when the file cannot be read *)
  imread : string -> res (option image);
  (* cv2.cvtColor(image, cv2.COLOR_BGR2GRAY) *)
  cvtColor_gray : image -> res image;
  (* cv2.CascadeClassifier(cv2.data.haarcascades + 'haarcascade_frontalface_default.xml') *)
  CascadeClassifier : res cascade;
  (* face_cascade.empty() *)
  cascade_empty : cascade -> bool;
  (* face_cascade.detectMultiScale(gray, scaleFactor, minNeighbors, minSize=(30, 30)):
     the rows (x, y, w, h) *)
  detectMultiScale : cascade -> image -> float -> Z -> res (list (Z * Z * Z * Z))
}.

Section Chapter18.

Context `{Python} `{Cv2}.

(** The dict appended for one row [(x, y, w, h)]. *)
Definition detection (face : Z * Z * Z * Z) : json :=
  let '(x, y, w, h) := face in
  JObj [("class", JStr "face");
        ("confidence", JFloat 0.85%float);
        ("bbox", JObj [("x", JInt x); ("y", JInt y);
                       ("width", JInt w); ("height", JInt h)])].

Definition failure (message : string) : json :=
  JObj [("success", JBool false); ("error", JStr message)].

Definition detect_faces (image_path : string) (scale_factor : float)
  (min_neighbors : Z) : script json :=
  try_except
    (let* loaded := lift (imread image_path) in
     match loaded with
     | None => ret (failure ("Failed to load image: " ++ image_path))
     | Some img =>
         let* gray := lift (cvtColor_gray img) in
         let* face_cascade := lift CascadeClassifier in
         if cascade_empty face_cascade then
           ret (failure "Failed to load Haar Cascade classifier")
         else
           let* faces :=
             lift (detectMultiScale face_cascade gray scale_factor min_neighbors) in
           let detections := map detection faces in
           ret (JObj [("success", JBool true);
                      ("detections", JArr detections);
                      ("count", JInt (Z.of_nat (List.length detections)));
                      ("image_path", JStr image_path);
                      ("method", JStr "OpenCV Haar Cascades")])
     end)
    [ExceptException (fun e => ret (failure (exn_msg e)))].

Definition usage : string :=
  "Usage: python3 detect_opencv.py <image_path> [scale_factor] [min_neighbors]".

(** The block under [if __name__ == '__main__'] *)
Definition detect_opencv_main (argv : list string) : script unit :=
  (if (List.length argv <? 2)%nat then
     print (failure usage) >>
     sys_exit 1
   else ret tt) >>
  let image_path := argv1 argv in
  let* scale_factor :=
    (if (2 <? List.length argv)%nat then lift (py_float (nth 2%nat argv ""))
     else ret 1.1%float) in
  let* min_neighbors :=
    (if (3 <? List.length argv)%nat then lift (py_int (nth 3%nat argv ""))
     else ret 5) in
  let* result := detect_faces image_path scale_factor min_neighbors in
  print result.

End Chapter18.

(** ** flask_server.py: start-up and health check *)

Section FlaskStartup.

Context `{Python} `{Sklearn}.

(** [classifier = ...] and [vectorizer = ...] under [global classifier,
    vectorizer]. *)
Definition set_classifier (clf : classifier features) : prog server unit :=
  fun srv => (Done tt, Server (Some clf) (srv_vectorizer srv)).

Definition set_vectorizer (vec : vectorizer features) : prog server unit :=
  fun srv => (Done tt, Server (srv_classifier srv) (Some vec)).

(** [load_models()], run on the module globals; the pickles are those of
    03-sentiment-analysis/models. Only the path of the model is tested. *)
Definition load_models : prog server unit :=
  (if negb model_path_exists then
     raise (Exn FileNotFoundError
              ("Model not found at ../03-sentiment-analysis/models/sentiment_model.pkl. "
               ++ "Run training first: cd ../03-sentiment-analysis && php analyze.php"))
   else ret tt) >>
  let* clf := lift joblib_load_model in
  set_classifier clf >>
  let* vec := lift joblib_load_vectorizer in
  set_vectorizer vec.

(** The globals when the module has been imported. *)
Definition unloaded : server := Server None None.

(** [GET /health] *)
Definition health_check (srv : server) : response :=
  Response (JObj [("status", JStr "healthy");
                  ("model_loaded",
                    JBool (match srv_classifier srv with
                           | Some _ => true
                           | None => false
                           end))]) 200.

End FlaskStartup.

(** ** chapter-17/onnx_inference.py *)

(** [len(v)] *)
Definition py_len (v : json) : res Z :=
  match v with
  | JArr items => Ok (Z.of_nat (List.length items))
  | JObj fields => Ok (Z.of_nat (List.length fields))
  | JStr s => Ok (Z.of_nat (String.length s))
  | _ => Raise (Exn TypeError ("object of type '" ++ type_name v ++ "' has no len()"))
  end.

(** [seq[start:]]: a negative [start] counts from the end, and both ends are
    clipped to the sequence. *)
Definition py_slice_from {A : Type} (start : Z) (seq : list A) : list A :=
  let n := Z.of_nat (List.length seq) in
  let first := if start <? 0 then Z.max 0 (start + n) else Z.min start n in
  skipn (Z.to_nat first) seq.

(** [np.argsort(probabilities)[-top_k:][::-1]], on the result of argsort. *)
Definition top_indices (top_k : Z) (sorted : list nat) : list nat :=
  rev (py_slice_from (- top_k) sorted).

(** [RuntimeError(f"{stage}: {e}")] *)
Definition runtime_error (stage : string) (e : exn) : exn :=
  Exn (LibraryError "RuntimeError") (stage ++ ": " ++ exn_msg e).

(** [try: r / except Exception as e: raise RuntimeError(f"{stage}: {e}")] *)
Definition or_runtime_error {A : Type} (stage : string) (r : res A) : res A :=
  match r with
  | Ok a => Ok a
  | Raise e => Raise (runtime_error stage e)
  end.

(** What the script uses of ONNX Runtime, Pillow and numpy. *)
Class Onnx : Type := {
  session : Type;
  picture : Type;
  array : Type;
  (* ort.InferenceSession(model_path, providers=['CPUExecutionProvider']) *)
  InferenceSession : string -> res session;
  (* Image.open(image_path).convert('RGB') *)
  open_rgb : string -> res picture;
  (* from img.resize((224, 224), Image.BILINEAR) to np.expand_dims(img_array, axis=0) *)
  normalize : picture -> res array;
  (* session.get_inputs()[0].name *)
  first_input_name : session -> res string;
  (* session.run(None, {input_name: input_data}) and then outputs[0][0] *)
  run_first_output : session -> string -> array -> res array;
  (* np.max(x), x - m, np.exp(x), x.sum(), x / s *)
  np_max : array -> res array;
  np_subtract : array -> array -> res array;
  np_exp : array -> res array;
  np_sum : array -> res array;
  np_divide : array -> array -> res array;
  (* np.argsort(x): the indices that sort x, smallest entry first *)
  np_argsort : array -> res (list nat);
  (* float(x[idx]) *)
  np_item : array -> nat -> res float;
  (* with open(labels_path, 'r') as f: json.load(f) *)
  json_load_file : string -> res json;
  (* str(KeyError(idx)) for an index taken from argsort *)
  key_error_message : nat -> string
}.

Section Chapter17.

Context `{Python} `{Onnx}.

Definition preprocess_image (image_path : string) : res array :=
  match open_rgb image_path with
  | Raise e => Raise (Exn ValueError ("Failed to load image: " ++ exn_msg e))
  | Ok img => normalize img
  end.

Definition softmax (x : array) : res array :=
  res_bind (np_max x) (fun m =>
  res_bind (np_subtract x m) (fun shifted =>
  res_bind (np_exp shifted) (fun exp_x =>
  res_bind (np_sum exp_x) (fun total =>
  np_divide exp_x total)))).

(** [labels[idx]] with an index taken from argsort *)
Definition label_at (labels : json) (idx : nat) : res json :=
  match labels with
  | JArr items =>
      match nth_error items idx with
      | Some label => Ok label
      | None => Raise (Exn IndexError "list index out of range")
      end
  | JStr s =>
      match String.get idx s with
      | Some c => Ok (JStr (String c EmptyString))
      | None => Raise (Exn IndexError "string index out of range")
      end
  | JObj _ => Raise (Exn KeyError (key_error_message idx))
  | _ =>
      Raise (Exn TypeError ("'" ++ type_name labels ++ "' object is not subscriptable"))
  end.

(** The loop [for idx in top_indices] that builds [results]. *)
Fixpoint build_results (labels : json) (probabilities : array) (indices : list nat)
  : res (list json) :=
  match indices with
  | [] => Ok []
  | idx :: rest =>
      res_bind (py_len labels) (fun n =>
      if Z.of_nat idx <? n then
        res_bind (label_at labels idx) (fun label =>
        res_bind (np_item probabilities idx) (fun confidence =>
        res_bind (build_results labels probabilities rest) (fun results =>
        Ok (JObj [("label", label); ("confidence", JFloat confidence)] :: results))))
      else build_results labels probabilities rest)
  end.

Definition classify_image (model_path image_path labels_path : string) (top_k : Z)
  : res (list json) :=
  res_bind (or_runtime_error "Failed to load ONNX model"
              (InferenceSession model_path)) (fun sess =>
  res_bind (or_runtime_error "Failed to preprocess image"
              (preprocess_image image_path)) (fun input_data =>
  res_bind (first_input_name sess) (fun input_name =>
  res_bind (or_runtime_error "Inference failed"
              (run_first_output sess input_name input_data)) (fun predictions =>
  res_bind (softmax predictions) (fun probabilities =>
  res_bind (np_argsort probabilities) (fun sorted =>
  let indices := top_indices top_k sorted in
  res_bind (or_runtime_error "Failed to load labels"
              (json_load_file labels_path)) (fun labels =>
  build_results labels probabilities indices))))))).



End Chapter17.

(** ** chapter-18/detect_yolo.py *)




Section Chapter18Yolo.

Context `{Python} `{Ultralytics}.






End Chapter18Yolo.

(** ** chapter-20/train_prophet.py *)

(** [v + suffix] with a [str] on the right *)
Definition py_add_str (v : json) (suffix : string) : res json :=
  match v with
  | JStr s => Ok (JStr (s ++ suffix))
  | JArr _ =>
      Raise (Exn TypeError
               ("can only concatenate list (not " ++ dquote ++ "str" ++ dquote
                ++ ") to list"))
  | _ =>
      Raise (Exn TypeError
               ("unsupported operand type(s) for +: '" ++ type_name v
                ++ "' and 'str'"))
  end.

(** One row of the forecast: [ds.strftime('%Y-%m')], [float(yhat)],
    [float(yhat_lower)], [float(yhat_upper)]. *)
Record forecast_row : Type := ForecastRow {
  fc_month : string;
  fc_yhat : float;
  fc_lower : float;
  fc_upper : float
}.

(** pandas and Prophet: [pd.DataFrame(rows)] with [pd.to_datetime], and
    [train_and_forecast(df, periods=6, freq='MS')] read row by row. *)
Class Prophet : Type := {
  forecast : list (json * json) -> res (list forecast_row)
}.

Section Chapter20.

Context `{Python} `{Prophet}.

(** The list comprehension of load_data_from_json: the pairs [(ds, y)]. *)
Fixpoint prophet_rows (records : list json) : res (list (json * json)) :=
  match records with
  | [] => Ok []
  | record :: rest =>
      res_bind (py_getitem record "month") (fun month =>
      res_bind (py_add_str month "-01") (fun ds =>
      res_bind (py_getitem record "revenue") (fun y =>
      res_bind (prophet_rows rest) (fun rows =>
      Ok ((ds, y) :: rows)))))
  end.

Definition load_data_from_json (json_data : string) : res (list (json * json)) :=
  res_bind (json_loads json_data) (fun data =>
  res_bind (py_iter data) (fun records =>
  prophet_rows records)).

Definition forecast_document (row : forecast_row) : json :=
  JObj [("month", JStr (fc_month row));
        ("forecast", JFloat (fc_yhat row));
        ("lower_bound", JFloat (fc_lower row));
        ("upper_bound", JFloat (fc_upper row));
        ("method", JStr "Prophet")].

(** [main()]; [stdin] is what [sys.stdin.read()] returns. *)
Definition prophet_main (stdin : string) : script unit :=
  try_except
    ((if all_space stdin then raise (Exn ValueError "No input data provided")
      else ret tt) >>
     let* rows := lift (load_data_from_json stdin) in
     let* forecast_rows := lift (forecast rows) in
     print (JObj [("success", JBool true);
                  ("forecasts", JArr (map forecast_document forecast_rows))]))
    [ExceptException (fun e =>
        print (JObj [("success", JBool false); ("error", JStr (exn_msg e))]) >>
        sys_exit 1)].

End Chapter20.

(** ** The blocks under [try]

    The statements under the top-level [try] of each script and view, apart
    from the handlers: the scripts above are their [try_except] with the
    handlers of the source. *)

Section Attempts.

Context `{Python} `{Sklearn}.





(** [POST /predict] *)
Definition predict_view_try (srv : server) (get_json : res json) : script response :=
  let* data := lift get_json in
  let* missing := lacks_key data "text" in
  if missing then
    ret (error_response ("Missing " ++ dquote ++ "text" ++ dquote ++ " field") 400)
  else
  let* text := lift (py_getitem data "text") in
  let* blank :=
    (if negb (truthy text) then ret true else lift (strip_is_empty text)) in
  if blank then ret (error_response "Text cannot be empty" 400)
  else
  let* text_vec := srv_transform srv [text] in
  let* predictions := srv_predict srv text_vec in
  let* prediction := lift (first_item predictions) in
  let* all_probabilities := srv_predict_proba srv text_vec in
  let* probabilities := lift (first_item all_probabilities) in
  let* classes := srv_classes srv in
  let scores := confidence_scores classes probabilities in
  let* confidence := lift (row_max probabilities) in
  ret (Response (JObj [("text", text);
                       ("sentiment", prediction);
                       ("confidence", JFloat confidence);
                       ("all_scores", scores)]) 200).

(** [POST /predict/batch] *)
Definition predict_batch_view_try (srv : server) (get_json : res json)
  : script response :=
  let* data := lift get_json in
  let* missing := lacks_key data "texts" in
  if missing then
    ret (error_response ("Missing " ++ dquote ++ "texts" ++ dquote ++ " array") 400)
  else
  let* texts := lift (py_getitem data "texts") in
  match texts with
  | JArr items =>
      let* texts_vec := srv_transform srv items in
      let* predictions := srv_predict srv texts_vec in
      let* probabilities := srv_predict_proba srv texts_vec in
      let* results := lift (batch_results items predictions probabilities) in
      ret (Response (JObj [("predictions", JArr results)]) 200)
  | _ =>
      ret (error_response (dquote ++ "texts" ++ dquote ++ " must be an array") 400)
  end.

End Attempts.

Section AttemptsMore.

Context `{Python} `{Onnx} `{Prophet}.



End AttemptsMore.

(** ** chapter-11/03-sentiment-analysis/train_model.py and
    chapter-11/solutions/exercise1-train.py

    The lines of progress the two scripts print as plain text are left out:
    [stdout] holds the JSON documents. *)



Section Training.

Context `{Python} `{Training}.









End Training.

(** ** chapter-12/download_model.py

    The script prints plain text only, which is left out. *)


Section Chapter12.

Context `{TensorFlow}.


End Chapter12.

(** ** Sample libraries

    Small concrete stand-ins for the library parameters, used to run the
    scripts on concrete inputs. *)

Definition quoted (s : string) : string := dquote ++ s ++ dquote.

(** The arguments the sample decoder knows, with what [json.loads] returns for
    them. *)
Definition sample_documents : list (string * json) :=
  [ ("{}", JObj []);
    ("5", JInt 5);
    ("{" ++ quoted "text" ++ ": 5}", JObj [("text", JInt 5)]);
    ("{" ++ quoted "text" ++ ": " ++ quoted "" ++ "}", JObj [("text", JStr "")]);
    ("{" ++ quoted "text" ++ ": " ++ quoted "great" ++ "}",
       JObj [("text", JStr "great")]);
    ("{" ++ quoted "id" ++ ": 1, " ++ quoted "type" ++ ": "
         ++ quoted "image_classification" ++ ", " ++ quoted "data" ++ ": {}}",
       JObj [("id", JInt 1); ("type", JStr "image_classification");
             ("data", JObj [])]);
    ("{" ++ quoted "id" ++ ": 2, " ++ quoted "type" ++ ": "
         ++ quoted "resize" ++ ", " ++ quoted "data" ++ ": {}}",
       JObj [("id", JInt 2); ("type", JStr "resize"); ("data", JObj [])]);
    ("{" ++ quoted "type" ++ ": " ++ quoted "image_classification" ++ "}",
       JObj [("type", JStr "image_classification")]) ].

Definition sample_loads (s : string) : res json :=
  match assoc s sample_documents with
  | Some doc => Ok doc
  | None => Raise (Exn JSONDecodeError "Expecting value: line 1 column 1 (char 0)")
  end.

(** [str()], exact on [None], booleans, integers and strings. *)
Definition sample_str (v : json) : string :=
  match v with
  | JNull => "None"
  | JBool true => "True"
  | JBool false => "False"
  | JInt z => pretty z
  | JStr s => s
  | _ => "<" ++ type_name v ++ ">"
  end.

Definition sample_add (acc : number) (x : json) : res number :=
  match acc, x with
  | NInt a, JInt b => Ok (NInt (a + b))
  | NInt a, JBool b => Ok (NInt (a + (if b then 1 else 0)))
  | NInt a, JFloat f => Ok (NFloat (Z2float a + f)%float)
  | NFloat a, JInt b => Ok (NFloat (a + Z2float b)%float)
  | NFloat a, JBool b => Ok (NFloat (a + (if b then 1 else 0))%float)
  | NFloat a, JFloat f => Ok (NFloat (a + f)%float)
  | NInt _, _ =>
      Raise (Exn TypeError
               ("unsupported operand type(s) for +: 'int' and '" ++ type_name x ++ "'"))
  | NFloat _, _ =>
      Raise (Exn TypeError
               ("unsupported operand type(s) for +: 'float' and '" ++ type_name x ++ "'"))
  end.

Definition sample_truediv (x : number) (n : Z) : res number :=
  if n =? 0 then Raise (Exn (LibraryError "ZeroDivisionError") "division by zero")
  else
    match x with
    | NInt a => Ok (NFloat (Z2float a / Z2float n)%float)
    | NFloat f => Ok (NFloat (f / Z2float n)%float)
    end.

Definition sample_float (s : string) : res float :=
  if String.eqb s "1.1" then Ok 1.1%float
  else if String.eqb s "1.3" then Ok 1.3%float
  else Raise (Exn ValueError ("could not convert string to float: '" ++ s ++ "'")).

Definition sample_int (s : string) : res Z :=
  if String.eqb s "3" then Ok 3
  else if String.eqb s "5" then Ok 5
  else Raise (Exn ValueError
                ("invalid literal for int() with base 10: '" ++ s ++ "'")).

Definition sample_python : Python := {|
  json_loads := sample_loads;
  py_str := sample_str;
  py_add := sample_add;
  py_truediv := sample_truediv;
  py_round2 := fun x => x;
  py_float := sample_float;
  py_int := sample_int
|}.

(** A toy vectorizer and classifier: the features of a batch are its texts,
    which must be strings; a text is positive when it contains "good". *)
Definition toy_text (v : json) : bool :=
  match v with
  | JStr _ => true
  | _ => false
  end.

Definition toy_vectorizer : vectorizer (list json) :=
  Vectorizer (fun texts =>
    if forallb toy_text texts then Ok texts
    else Raise (Exn AttributeError "'int' object has no attribute 'lower'")).

Definition toy_label (v : json) : json :=
  match v with
  | JStr s => if contains "good" s then JStr "positive" else JStr "negative"
  | _ => JStr "negative"
  end.

Definition toy_row (v : json) : list float :=
  match toy_label v with
  | JStr "positive" => [0.25; 0.75]%float
  | _ => [0.75; 0.25]%float
  end.

Definition toy_classifier : classifier (list json) :=
  Classifier (fun X => Ok (map toy_label X))
             (fun X => Ok (map toy_row X))
             ["negative"; "positive"].

Fixpoint float_max (row : list float) : option float :=
  match row with
  | [] => None
  | x :: rest =>
      match float_max rest with
      | None => Some x
      | Some y => Some (if PrimFloat.ltb x y then y else x)
      end
  end.

Definition sample_row_max (row : list float) : res float :=
  match float_max row with
  | Some x => Ok x
  | None =>
      Raise (Exn ValueError
               "zero-size array to reduction operation maximum which has no identity")
  end.

Definition sample_sklearn : Sklearn := {|
  features := list json;
  row_max := sample_row_max;
  model_path_exists := true;
  vectorizer_path_exists := true;
  joblib_load_model := Ok toy_classifier;
  joblib_load_vectorizer := Ok toy_vectorizer
|}.

(** A toy OpenCV: an image is its path, "missing.jpg" cannot be read, and one
    face is found in every other image. *)
Definition sample_cv2 : Cv2 := {|
  image := string;
  cascade := unit;
  imread := fun path =>
    if String.eqb path "missing.jpg" then Ok None else Ok (Some path);
  cvtColor_gray := fun img => Ok img;
  CascadeClassifier := Ok tt;
  cascade_empty := fun _ => false;
  detectMultiScale := fun _ _ _ _ => Ok [(10, 20, 30, 40)]
|}.

(** The Flask server after [load_models()] restored the toy model. *)
Definition sample_server : server (H0 := sample_sklearn) :=
  Server (H0 := sample_sklearn) (Some toy_classifier) (Some toy_vectorizer).

(** A worker without the pickled model, and three payloads: a task, a
    document without [id], and the same task again. *)
Definition sample_worker : worker_model (H0 := sample_sklearn) :=
  WorkerModel (H0 := sample_sklearn) None None.

Definition payload_task_1 : string :=
  "{" ++ quoted "id" ++ ": 1, " ++ quoted "type" ++ ": "
      ++ quoted "image_classification" ++ ", " ++ quoted "data" ++ ": {}}".

Definition payload_without_id : string :=
  "{" ++ quoted "type" ++ ": " ++ quoted "image_classification" ++ "}".

(** A user of process.py with three purchases, one of them without amount. *)
Definition sample_purchases : list json :=
  [JObj [("amount", JInt 600)]; JObj [("item", JStr "cable")]; JObj [("amount", JInt 50)]].

Definition sample_user : list (string * json) :=
  [("id", JInt 7); ("name", JStr "Ada"); ("purchases", JArr sample_purchases)].

(** An installation where the pickle of the vectorizer is missing. *)
Definition sklearn_without_vectorizer : Sklearn := {|
  features := list json;
  row_max := sample_row_max;
  model_path_exists := true;
  vectorizer_path_exists := false;
  joblib_load_model := Ok toy_classifier;
  joblib_load_vectorizer :=
    Raise (Exn FileNotFoundError
             "[Errno 2] No such file or directory: 'models/vectorizer.pkl'")
|}.

(** Further arguments the sample decoder knows: arrays of users. *)
Definition more_documents : list (string * json) :=
  [ ("[]", JArr []);
    ("[{}, 5]", JArr [JObj []; JInt 5]);
    ("{" ++ quoted "texts" ++ ": [" ++ quoted "good" ++ ", " ++ quoted "bad" ++ "]}",
       JObj [("texts", JArr [JStr "good"; JStr "bad"])]) ].

Definition more_loads (s : string) : res json :=
  match assoc s more_documents with
  | Some doc => Ok doc
  | None => sample_loads s
  end.

Definition more_python : Python := {|
  json_loads := more_loads;
  py_str := sample_str;
  py_add := sample_add;
  py_truediv := sample_truediv;
  py_round2 := fun x => x;
  py_float := sample_float;
  py_int := sample_int
|}.

(** A toy ONNX Runtime: every model but "missing.onnx" loads and answers
    three equal logits; arrays are lists of floats, and the toy numpy knows
    [exp] at 0 and [argsort] on arrays of equal entries only. *)
Definition toy_exp (x : list float) : res (list float) :=
  if forallb (fun a => PrimFloat.eqb a 0) x then Ok (map (fun _ => 1%float) x)
  else Raise (Exn ValueError "toy exp: entry other than 0").

Definition toy_argsort (x : list float) : res (list nat) :=
  match x with
  | [] => Ok []
  | a :: _ =>
      if forallb (fun b => PrimFloat.eqb a b) x then Ok (seq 0 (List.length x))
      else Raise (Exn ValueError "toy argsort: entries differ")
  end.

Definition toy_scalar (op : string) (s : list float) : res float :=
  match s with
  | [v] => Ok v
  | _ => Raise (Exn ValueError ("toy " ++ op ++ ": operand is not a scalar"))
  end.

Definition sample_onnx : Onnx := {|
  session := unit;
  picture := unit;
  array := list float;
  InferenceSession := fun path =>
    if String.eqb path "missing.onnx"
    then Raise (Exn (LibraryError "NoSuchFile") "Load model from missing.onnx failed")
    else Ok tt;
  open_rgb := fun path =>
    if String.eqb path "missing.jpg"
    then Raise (Exn FileNotFoundError
                  "[Errno 2] No such file or directory: 'missing.jpg'")
    else Ok tt;
  normalize := fun _ => Ok [];
  first_input_name := fun _ => Ok "input";
  run_first_output := fun _ _ _ => Ok [0; 0; 0]%float;
  np_max := fun x => res_bind (sample_row_max x) (fun m => Ok [m]);
  np_subtract := fun x m =>
    res_bind (toy_scalar "subtract" m) (fun v => Ok (map (fun a => a - v)%float x));
  np_exp := toy_exp;
  np_sum := fun x => Ok [fold_left PrimFloat.add x 0%float];
  np_divide := fun x s =>
    res_bind (toy_scalar "divide" s) (fun v => Ok (map (fun a => a / v)%float x));
  np_argsort := toy_argsort;
  np_item := fun x idx =>
    match nth_error x idx with
    | Some v => Ok v
    | None => Raise (Exn IndexError "index out of bounds")
    end;
  json_load_file := fun path =>
    if String.eqb path "labels.json"
    then Ok (JArr [JStr "cat"; JStr "dog"; JStr "bird"])
    else Raise (Exn FileNotFoundError "[Errno 2] No such file or directory");
  key_error_message := fun idx => pretty (Z.of_nat idx)
|}.


(** A toy Prophet: one constant forecast row, and the [KeyError] pandas
    raises on a frame without rows. *)
Definition sample_prophet : Prophet := {|
  forecast := fun rows =>
    match rows with
    | [] => Raise (Exn KeyError "'ds'")
    | _ :: _ => Ok [ForecastRow "2025-01" 100 90 110]
    end
|}.

Definition sales_json : string :=
  "[{" ++ quoted "month" ++ ": " ++ quoted "2024-12" ++ ", "
       ++ quoted "revenue" ++ ": 95}]".

(** A decoder that knows [sales_json] besides the sample arguments. *)
Definition sales_python : Python := {|
  json_loads := fun s =>
    if String.eqb s sales_json
    then Ok (JArr [JObj [("month", JStr "2024-12"); ("revenue", JInt 95)]])
    else sample_loads s;
  py_str := sample_str;
  py_add := sample_add;
  py_truediv := sample_truediv;
  py_round2 := fun x => x;
  py_float := sample_float;
  py_int := sample_int
|}.


(** [c * n] *)
Fixpoint repeat_char (c : ascii) (n : nat) : string :=
  match n with
  | O => EmptyString
  | S n' => String c (repeat_char c n')
  end.

(** One thousand opening brackets, and a decoder that, as CPython does, gives
    up on them with [RecursionError] and reads [NaN] as a float. *)
Definition nested_arrays : string := repeat_char "["%char 1000.

Definition sample_cpython : Python := {|
  json_loads := fun s =>
    if String.eqb s nested_arrays
    then Raise (Exn (LibraryError "RecursionError")
                    ("maximum recursion depth exceeded while decoding a JSON "
                     ++ "array from a unicode string"))
    else if String.eqb s "NaN" then Ok (JFloat nan)
    else sample_loads s;
  py_str := sample_str;
  py_add := sample_add;
  py_truediv := sample_truediv;
  py_round2 := fun x => x;
  py_float := sample_float;
  py_int := sample_int
|}.





(** ** Predicates of the statements *)


(** The sentiment and the confidence of a prediction document. *)
Definition verdict (doc : json) : option (json * json) :=
  match doc with
  | JObj fields =>
      match assoc "sentiment" fields, assoc "confidence" fields with
      | Some s, Some c => Some (s, c)
      | _, _ => None
      end
  | _ => None
  end.

(** What detect_opencv.py prints for a run that reached [detect_faces]: a
    failure, or the detections made from the rows the cascade returned. *)
Definition detection_report (doc : json) : Prop :=
  (exists message, doc = failure message)
  \/ (exists faces image_path,
        doc = JObj [("success", JBool true);
                    ("detections", JArr (map detection faces));
                    ("count", JInt (Z.of_nat (List.length (map detection faces))));
                    ("image_path", JStr image_path);
                    ("method", JStr "OpenCV Haar Cascades")]).

(** A detection of class [face] with the constant confidence 0.85. *)
Definition face_detection (d : json) : Prop :=
  exists fields,
    d = JObj fields
    /\ assoc "class" fields = Some (JStr "face")
    /\ assoc "confidence" fields = Some (JFloat 0.85%float).

(** The document has no [text] field, or one whose value is empty in Python's
    sense (the empty string, [null], 0, [false], an empty list or object). *)
Definition lacks_text (doc : json) : Prop :=
  match doc with
  | JObj fields =>
      match assoc "text" fields with
      | Some text => truthy text = false
      | None => True
      end
  | _ => True
  end.

(** The document is an object whose [text] is a string of white space. *)
Definition blank_text (doc : json) : Prop :=
  exists fields s,
    doc = JObj fields /\ assoc "text" fields = Some (JStr s) /\ all_space s = true.

(** A request body that is a JSON object, or [null]. *)
Definition json_object (doc : json) : Prop :=
  match doc with
  | JNull | JObj _ => True
  | _ => False
  end.

(** The document has no [texts] field, or one that is not an array. *)
Definition lacks_texts (doc : json) : Prop :=
  match doc with
  | JObj fields =>
      match assoc "texts" fields with
      | Some (JArr _) => False
      | _ => True
      end
  | _ => True
  end.

(** The body of an error response: [{"error": message}]. *)
Definition error_body (body : json) : Prop :=
  exists message, body = JObj [("error", JStr message)].

(** A [setex] call with the fixed expiry, on the [task:] or [result:] key of
    some id. *)
Definition well_keyed `{Python} (c : setex_call) : Prop :=
  setex_ttl c = 3600
  /\ exists id,
       setex_key c = "task:" ++ py_str id \/ setex_key c = "result:" ++ py_str id.

(** The Redis list [ml_tasks] only shrinks: [after] is a suffix of [before]. *)
Definition only_popped (before after : list string) : Prop :=
  exists popped, before = (popped ++ after)%list.

(** The [status] of a stored record. *)
Definition status_of (doc : json) : option json :=
  match doc with
  | JObj fields => assoc "status" fields
  | _ => None
  end.

(** The letters that [str.lower] changes among the code points below 256,
    each with its lowercase form: A to Z, and the capital letters of Latin-1
    (192 to 214 and 216 to 222), whose lowercase forms lie 32 further on. *)
Definition case_pairs : list (ascii * ascii) :=
  combine (list_ascii_of_string "ABCDEFGHIJKLMNOPQRSTUVWXYZ")
          (list_ascii_of_string "abcdefghijklmnopqrstuvwxyz")
  ++ combine (map ascii_of_nat (seq 192 23)) (map ascii_of_nat (seq 224 23))
  ++ combine (map ascii_of_nat (seq 216 7)) (map ascii_of_nat (seq 248 7)).

(** [c'] is the lowercase form of [c]: the one [case_pairs] gives for a
    capital letter, and [c] itself for every other character. *)
Definition lowercase_char (c c' : ascii) : Prop :=
  In (c, c') case_pairs \/ (~ In c (map fst case_pairs) /\ c' = c).

(** [lowered] is [text] with every character replaced by its lowercase
    form. *)
Inductive lowercase : string -> string -> Prop :=
| lowercase_empty : lowercase "" ""
| lowercase_char_by_char (c c' : ascii) (text lowered : string) :
    lowercase_char c c' -> lowercase text lowered ->
    lowercase (String c text) (String c' lowered).

(** [word] occurs in [text] as a run of consecutive characters. *)
Definition occurs_in (word text : string) : Prop :=
  exists before after, text = before ++ word ++ after.

(** [n] of the [words] occur in [text]. *)
Inductive count_occurring (text : string) : list string -> Z -> Prop :=
| count_none : count_occurring text [] 0
| count_hit (word : string) (words : list string) (n : Z) :
    occurs_in word text -> count_occurring text words n ->
    count_occurring text (word :: words) (n + 1)
| count_miss (word : string) (words : list string) (n : Z) :
    ~ occurs_in word text -> count_occurring text words n ->
    count_occurring text (word :: words) n.

(** Two texts that differ in the case of letters only. *)
Inductive same_up_to_case : string -> string -> Prop :=
| same_empty : same_up_to_case "" ""
| same_char_by_char (c1 c2 : ascii) (s1 s2 : string) :
    c1 = c2 \/ In (c1, c2) case_pairs \/ In (c2, c1) case_pairs ->
    same_up_to_case s1 s2 ->
    same_up_to_case (String c1 s1) (String c2 s2).

(** [POST /predict]: the bodies on which the validation itself raises, the
    membership test [in] on a number other than 0 or on [True], the subscript
    on a string or a list that contains [text]. *)
Definition breaks_validation (data : json) : Prop :=
  match data with
  | JBool b => b = true
  | JInt z => z <> 0
  | JFloat f => PrimFloat.eqb f 0%float = false
  | JStr s => occurs_in "text" s
  | JArr items => In (JStr "text") items
  | JNull | JObj _ => False
  end.



Definition typed_report (e : exn) : json :=
  JObj [("error", JStr (exn_msg e)); ("type", JStr (class_name (exn_cls e)))].

Section Predictions.

Context `{Sklearn}.

(** What the model answers for one text: the document of a prediction, or the
    exception of the first call that fails. *)
Definition prediction (clf : classifier features) (vec : vectorizer features)
  (text : json) : res json :=
  res_bind (v_transform vec [text]) (fun text_vec =>
  res_bind (c_predict clf text_vec) (fun predictions =>
  res_bind (first_item predictions) (fun label =>
  res_bind (c_predict_proba clf text_vec) (fun all_probabilities =>
  res_bind (first_item all_probabilities) (fun probabilities =>
  res_bind (row_max probabilities) (fun confidence =>
  Ok (JObj [("text", text);
            ("sentiment", label);
            ("confidence", JFloat confidence);
            ("all_scores", confidence_scores (c_classes clf) probabilities)]))))))).

(** What the model answers for a list of texts. *)
Definition batch_prediction (clf : classifier features) (vec : vectorizer features)
  (texts : list json) : res json :=
  res_bind (v_transform vec texts) (fun texts_vec =>
  res_bind (c_predict clf texts_vec) (fun predictions =>
  res_bind (c_predict_proba clf texts_vec) (fun probabilities =>
  res_bind (batch_results texts predictions probabilities) (fun results =>
  Ok (JObj [("predictions", JArr results)]))))).

(** The answer of a view to a prediction: 200 with the document, or 500 with
    the message of the exception. *)
Definition http_answer (r : res json) : completion response :=
  match r with
  | Ok doc => Done (Response doc 200)
  | Raise e => Done (error_response (exn_msg e) 500)
  end.

End Predictions.

(** * Properties *)

Ltac unfold_prog :=
  unfold try_except, bind, ret, lift, raise, sys_exit, print, record_call in *.

Section Envelope.

Context `{Python} `{Sklearn} `{Cv2}.

Lemma is_JSONDecodeError_cls (e : exn) :
  is_JSONDecodeError e = true -> exists msg, e = Exn JSONDecodeError msg.
Proof.
  destruct e as [c msg]; destruct c; simpl; try discriminate.
  intros _; exists msg; reflexivity.
Qed.

(** C4, as the scripts implement it. For an argument that [json.loads]
    rejects, with whatever exception: quick_sentiment.py, process.py and
    predict.py print one JSON object with an [error] key (the message of the
    exception; process.py and predict.py add its class) and exit with 1.
    hello.py does so exactly when the exception is a [JSONDecodeError];
    otherwise it prints nothing and ends with a traceback. *)
Theorem malformed_json_is_reported (script_path arg : string)
  (more : list string) (e : exn) :
  json_loads arg = Raise e ->
  let argv := script_path :: arg :: more in
  run_main (quick_sentiment_main argv)
  = Outcome [JObj [("error",
                     JStr (if is_JSONDecodeError e
                           then "Invalid JSON: " ++ exn_msg e
                           else exn_msg e))]] [] 1 None
  /\ run_main (process_main argv) = Outcome [typed_report e] [] 1 None
  /\ run_main (predict_main argv) = Outcome [typed_report e] [] 1 None
  /\ run_main (hello_main argv)
     = (if is_JSONDecodeError e
        then Outcome [JObj [("error", JStr ("Invalid JSON: " ++ exn_msg e))]]
                     [] 1 None
        else Outcome [] [] 1 (Some (class_name (exn_cls e))))
  /\ (reports_error (run_main (hello_main argv)) <-> is_JSONDecodeError e = true).
Proof.
  intros Hloads argv.
  assert (Hhello : run_main (hello_main argv)
     = (if is_JSONDecodeError e
        then Outcome [JObj [("error", JStr ("Invalid JSON: " ++ exn_msg e))]]
                     [] 1 None
        else Outcome [] [] 1 (Some (class_name (exn_cls e))))).
  { unfold run_main, hello_main, argv, argv1. unfold_prog. simpl.
    rewrite Hloads. simpl. destruct (is_JSONDecodeError e); reflexivity. }
  split; [|split; [|split; [|split; [exact Hhello|]]]].
  - unfold run_main, quick_sentiment_main, argv, argv1. unfold_prog. simpl.
    rewrite Hloads. simpl. destruct (is_JSONDecodeError e); reflexivity.
  - unfold run_main, process_main, report_with_type, argv, argv1. unfold_prog.
    simpl. rewrite Hloads. reflexivity.
  - unfold run_main, predict_main, report_with_type, argv, argv1. unfold_prog.
    simpl. rewrite Hloads. reflexivity.
  - rewrite Hhello. unfold reports_error.
    destruct (is_JSONDecodeError e); simpl; split.
    + reflexivity.
    + intros _. repeat split; try discriminate. eexists. split; reflexivity.
    + intros ((doc & Hprinted & _) & _). discriminate Hprinted.
    + discriminate.
Qed.

End Envelope.

(** C4 on the sample decoder, for the argument [not json]. *)
Lemma malformed_json_is_reported_witness :
  let argv := ["script.py"; "not json"] in
  let message := "Expecting value: line 1 column 1 (char 0)" in
  run_main (quick_sentiment_main (H := sample_python) argv)
  = Outcome [JObj [("error", JStr ("Invalid JSON: " ++ message))]] [] 1 None
  /\ run_main (process_main (H := sample_python) argv)
     = Outcome [JObj [("error", JStr message); ("type", JStr "JSONDecodeError")]]
               [] 1 None
  /\ run_main (predict_main (H := sample_python) (H0 := sample_sklearn) argv)
     = Outcome [JObj [("error", JStr message); ("type", JStr "JSONDecodeError")]]
               [] 1 None
  /\ reports_error (run_main (hello_main (H := sample_python) argv)).
Proof.
  destruct (malformed_json_is_reported (H := sample_python)
              (H0 := sample_sklearn) "script.py" "not json" []
              (Exn JSONDecodeError "Expecting value: line 1 column 1 (char 0)")
              eq_refl)
    as (Hquick & Hprocess & Hpredict & _ & Hhello).
  split; [exact Hquick|]. split; [exact Hprocess|]. split; [exact Hpredict|].
  apply Hhello. reflexivity.
Defined.

(** C4, counterexample. One thousand opening brackets are not valid JSON;
    [json.loads] gives up on them with [RecursionError], which hello.py does
    not catch: nothing is printed and the script ends with a traceback. [NaN]
    is not valid JSON either; [json.loads] reads it as a float, on which the
    call of [.get] raises [AttributeError], with the same end. *)
Lemma hello_traceback_on_invalid_json :
  let deep := run_main (hello_main (H := sample_cpython) ["hello.py"; nested_arrays]) in
  let nan := run_main (hello_main (H := sample_cpython) ["hello.py"; "NaN"]) in
  (exists e, json_loads (Python := sample_cpython) nested_arrays = Raise e)
  /\ deep = Outcome [] [] 1 (Some "RecursionError")
  /\ ~ reports_error deep
  /\ (exists f, json_loads (Python := sample_cpython) "NaN" = Ok (JFloat f))
  /\ nan = Outcome [] [] 1 (Some "AttributeError")
  /\ ~ reports_error nan.
Proof.
  split; [eexists; vm_compute; reflexivity|].
  split; [vm_compute; reflexivity|].
  split; [intros ((doc & Hprinted & _) & _); vm_compute in Hprinted; discriminate|].
  split; [eexists; vm_compute; reflexivity|].
  split; [vm_compute; reflexivity|].
  intros ((doc & Hprinted & _) & _). vm_compute in Hprinted. discriminate.
Qed.

Ltac case_step :=
  match goal with
  | |- context [match ?x with _ => _ end] =>
      lazymatch x with
      | context [match _ with _ => _ end] => fail
      | _ => destruct x eqn:?; simpl
      end
  end.


Section EnvelopeAll.

Context `{Python} `{Sklearn} `{Cv2}.






Lemma detect_faces_report (image_path : string) (scale_factor : float)
  (min_neighbors : Z) (w : world) :
  exists doc, detect_faces image_path scale_factor min_neighbors w = (Done doc, w)
              /\ detection_report doc.
Proof.
  unfold detect_faces, detection_report. unfold_prog. simpl.
  repeat case_step; eexists; (split; [reflexivity|]); eauto.
Qed.

End EnvelopeAll.


(** ** quick_sentiment.py: analyze_sentiment *)

Lemma count_words_range (words : list string) (text_lower : string) :
  0 <= count_words words text_lower <= Z.of_nat (List.length words).
Proof.
  unfold count_words. split; [lia|].
  apply Nat2Z.inj_le. apply List.filter_length_le.
Qed.

(** ** quick_sentiment.py: lowercasing and keyword search *)

Lemma lower_char_spec (c : ascii) : lowercase_char c (lower_char c).
Proof.
  assert (Hdecide :
    existsb (fun p => Ascii.eqb c (fst p) && Ascii.eqb (lower_char c) (snd p))
            case_pairs
    || (negb (existsb (fun p => Ascii.eqb c (fst p)) case_pairs)
        && Ascii.eqb (lower_char c) c) = true).
  { destruct c as [[] [] [] [] [] [] [] []]; vm_compute; reflexivity. }
  apply orb_true_iff in Hdecide. destruct Hdecide as [Hpair | Hother].
  - left. apply existsb_exists in Hpair. destruct Hpair as ([a b] & Hin & Heq).
    apply andb_true_iff in Heq. destruct Heq as [Ha Hb].
    apply Ascii.eqb_eq in Ha. apply Ascii.eqb_eq in Hb. simpl in Ha, Hb.
    subst a b. exact Hin.
  - right. apply andb_true_iff in Hother. destruct Hother as [Hnone Hsame].
    apply Ascii.eqb_eq in Hsame. split; [|exact Hsame].
    intros Hin. apply in_map_iff in Hin. destruct Hin as ([a b] & Ha & Hin).
    simpl in Ha. subst a.
    apply negb_true_iff in Hnone.
    assert (Hsome : existsb (fun p => Ascii.eqb c (fst p)) case_pairs = true).
    { apply existsb_exists. exists (c, b). split; [exact Hin|].
      apply Ascii.eqb_refl. }
    congruence.
Qed.

Lemma lower_spec (text : string) : lowercase text (lower text).
Proof.
  induction text as [|c text IH]; simpl; constructor; auto using lower_char_spec.
Qed.

Lemma prefix_spec (word text : string) :
  String.prefix word text = true <-> exists after, text = word ++ after.
Proof.
  revert text. induction word as [|a word IH]; intros text.
  - destruct text; simpl; (split; [intros _; eexists; reflexivity | reflexivity]).
  - destruct text as [|b text]; simpl.
    + split; [discriminate | intros [after Heq]; discriminate Heq].
    + destruct (Ascii.ascii_dec a b) as [-> | Hne].
      * rewrite IH. split; intros [after Heq]; exists after.
        -- rewrite Heq. reflexivity.
        -- injection Heq as ->. reflexivity.
      * split; [discriminate|].
        intros [after Heq]. injection Heq as Hab _. congruence.
Qed.

Lemma contains_spec (word text : string) :
  contains word text = true <-> occurs_in word text.
Proof.
  unfold occurs_in. induction text as [|b text IH].
  - cbn [contains]. rewrite orb_false_r, prefix_spec. split.
    + intros [after Heq]. exists "", after. exact Heq.
    + intros (before & after & Heq). destruct before as [|a before].
      * exists after. exact Heq.
      * discriminate Heq.
  - cbn [contains]. rewrite orb_true_iff, prefix_spec, IH. split.
    + intros [[after Heq] | (before & after & Heq)].
      * exists "", after. exact Heq.
      * exists (String b before), after. simpl. rewrite Heq. reflexivity.
    + intros (before & after & Heq). destruct before as [|a before].
      * left. exists after. exact Heq.
      * right. injection Heq as _ Heq. exists before, after. exact Heq.
Qed.

Lemma count_words_spec (words : list string) (text : string) :
  count_occurring text words (count_words words text).
Proof.
  unfold count_words. induction words as [|word words IH]; simpl.
  - constructor.
  - destruct (contains word text) eqn:Hword; simpl.
    + rewrite Nat2Z.inj_succ, <- Z.add_1_r.
      apply count_hit; [apply contains_spec; exact Hword | exact IH].
    + apply count_miss; [|exact IH].
      intros Hoccurs. apply contains_spec in Hoccurs. congruence.
Qed.

Lemma lower_char_of_pair (c1 c2 : ascii) :
  In (c1, c2) case_pairs -> lower_char c1 = c2 /\ lower_char c2 = c2.
Proof.
  intros Hin.
  assert (Hall : forallb (fun p => Ascii.eqb (lower_char (fst p)) (snd p)
                                   && Ascii.eqb (lower_char (snd p)) (snd p))
                         case_pairs = true) by (vm_compute; reflexivity).
  rewrite forallb_forall in Hall. specialize (Hall _ Hin). simpl in Hall.
  apply andb_true_iff in Hall. destruct Hall as [H1 H2].
  apply Ascii.eqb_eq in H1. apply Ascii.eqb_eq in H2. auto.
Qed.

Lemma lower_same_up_to_case (s1 s2 : string) :
  same_up_to_case s1 s2 -> lower s1 = lower s2.
Proof.
  induction 1 as [|c1 c2 s1 s2 Hc _ IH]; simpl; [reflexivity|].
  rewrite IH. f_equal.
  destruct Hc as [-> | [Hin | Hin]]; [reflexivity | |];
    destruct (lower_char_of_pair _ _ Hin) as [H1 H2]; congruence.
Qed.

Lemma lowercase_functional (text lowered : string) :
  lowercase text lowered -> lowered = lower text.
Proof.
  induction 1 as [|c c' text lowered Hc _ IH]; simpl; [reflexivity|].
  rewrite IH. f_equal.
  destruct (lower_char_spec c) as [Hpair | [Hnone Hsame]];
    destruct Hc as [Hpair' | [Hnone' ->]].
  - destruct (lower_char_of_pair _ _ Hpair') as [Heq _]. symmetry. exact Heq.
  - exfalso. apply Hnone'. apply in_map_iff. eexists. split; [|exact Hpair].
    reflexivity.
  - exfalso. apply Hnone. apply in_map_iff. eexists. split; [|exact Hpair'].
    reflexivity.
  - symmetry. exact Hsame.
Qed.

Ltac in_case_pairs :=
  vm_compute; repeat first [left; reflexivity | right].

(** C8. For a non-empty text, take its lowercase form (every capital letter
    replaced by its small one) and count the positive and the negative
    keywords that occur in it as a run of characters: [analyze_sentiment]
    answers "positive" exactly when the positive count exceeds the negative
    one, "negative" exactly when the negative count exceeds the positive one,
    "neutral" exactly when the counts are equal. The confidence lies in
    [0.60, 0.99]; it is 0.60 for "neutral" and [min(0.85 + 0.05 * count, 0.99)]
    otherwise, [count] being the count of the winning keywords: 0.90 for one
    keyword, 0.95 for two, 0.99 from three on. *)
Theorem analyze_sentiment_spec (text : string) :
  text <> "" ->
  let capped count :=
    (let raw := 0.85 + 0.05 * Z2float count in
     if PrimFloat.ltb 0.99 raw then 0.99 else raw)%float in
  exists lowered positive_count negative_count sentiment confidence,
    lowercase text lowered
    /\ count_occurring lowered positive_words positive_count
    /\ count_occurring lowered negative_words negative_count
    /\ analyze_sentiment (JStr text)
       = Ok (JObj [("sentiment", JStr sentiment); ("confidence", JFloat confidence)])
    /\ (sentiment = "positive" <-> negative_count < positive_count)
    /\ (sentiment = "negative" <-> positive_count < negative_count)
    /\ (sentiment = "neutral" <-> positive_count = negative_count)
    /\ PrimFloat.leb 0.60 confidence = true
    /\ PrimFloat.leb confidence 0.99 = true
    /\ (sentiment = "neutral" -> confidence = 0.60%float)
    /\ (sentiment = "positive" -> confidence = capped positive_count)
    /\ (sentiment = "negative" -> confidence = capped negative_count)
    /\ (sentiment <> "neutral" ->
        let count := Z.max positive_count negative_count in
        (count = 1 -> confidence = 0.90%float)
        /\ (count = 2 -> confidence = 0.95%float)
        /\ (3 <= count -> confidence = 0.99%float)).
Proof.
  intros _ capped.
  set (positive_count := count_words positive_words (lower text)).
  set (negative_count := count_words negative_words (lower text)).
  exists (lower text), positive_count, negative_count.
  pose proof (count_words_range positive_words (lower text)) as Hp.
  pose proof (count_words_range negative_words (lower text)) as Hn.
  fold positive_count in Hp. fold negative_count in Hn.
  change (Z.of_nat (List.length positive_words)) with 10 in Hp.
  change (Z.of_nat (List.length negative_words)) with 10 in Hn.
  assert (Hcapped : forall count, 0 <= count <= 10 ->
            keyword_confidence count = capped count
            /\ PrimFloat.leb 0.60 (keyword_confidence count) = true
            /\ PrimFloat.leb (keyword_confidence count) 0.99 = true
            /\ (count = 1 -> keyword_confidence count = 0.90%float)
            /\ (count = 2 -> keyword_confidence count = 0.95%float)
            /\ (3 <= count -> keyword_confidence count = 0.99%float)).
  { intros count Hc.
    assert (Hcases : count = 0 \/ count = 1 \/ count = 2 \/ count = 3 \/ count = 4
                     \/ count = 5 \/ count = 6 \/ count = 7 \/ count = 8
                     \/ count = 9 \/ count = 10) by lia.
    repeat (destruct Hcases as [-> | Hcases]); try subst count;
      (split; [vm_compute; reflexivity|]);
      (split; [vm_compute; reflexivity|]);
      (split; [vm_compute; reflexivity|]);
      repeat split; intros; try lia; vm_compute; reflexivity. }
  destruct (Hcapped positive_count Hp) as (Hp0 & Hp1 & Hp2 & Hp3 & Hp4 & Hp5).
  destruct (Hcapped negative_count Hn) as (Hn0 & Hn1 & Hn2 & Hn3 & Hn4 & Hn5).
  unfold analyze_sentiment; simpl.
  fold positive_count negative_count.
  destruct (negative_count <? positive_count) eqn:Hpos;
    [| destruct (positive_count <? negative_count) eqn:Hneg];
    do 2 eexists;
    (split; [apply lower_spec|]);
    (split; [apply count_words_spec|]);
    (split; [apply count_words_spec|]);
    (split; [reflexivity|]).
  - apply Z.ltb_lt in Hpos.
    replace (Z.max positive_count negative_count) with positive_count by lia.
    repeat split; intros; try discriminate; try lia; auto; congruence.
  - apply Z.ltb_ge in Hpos. apply Z.ltb_lt in Hneg.
    replace (Z.max positive_count negative_count) with negative_count by lia.
    repeat split; intros; try discriminate; try lia; auto; congruence.
  - apply Z.ltb_ge in Hpos. apply Z.ltb_ge in Hneg.
    repeat split; intros; try discriminate; try lia; auto; congruence.
Qed.

(** C8 on the text [A GREAT Value]: one positive keyword, in capitals and not
    at the start, and no negative one. *)
Lemma analyze_sentiment_spec_witness :
  "A GREAT Value" <> ""
  /\ exists sentiment confidence,
       analyze_sentiment (JStr "A GREAT Value")
       = Ok (JObj [("sentiment", JStr sentiment); ("confidence", JFloat confidence)])
       /\ sentiment = "positive"
       /\ confidence = 0.90%float.
Proof.
  split; [discriminate|].
  destruct (analyze_sentiment_spec "A GREAT Value" ltac:(discriminate))
    as (lowered & positive_count & negative_count & sentiment & confidence
        & _ & _ & _ & Hrun & _).
  exists sentiment, confidence. split; [exact Hrun|].
  vm_compute in Hrun. injection Hrun as <- <-. split; reflexivity.
Defined.

(** ** process.py: process_user_data *)

Section Segments.

Context `{Python}.



End Segments.


(** ** detect_opencv.py: detect_faces *)

Section Faces.

Context `{Python} `{Cv2}.

Lemma detections_are_faces (faces : list (Z * Z * Z * Z)) :
  Forall face_detection (map detection faces).
Proof.
  induction faces as [|[[[x y] w] h] rest IH]; simpl; constructor; auto.
  eexists; repeat split; reflexivity.
Qed.

(** C10. When detect_opencv.py prints a report with [success: true], every
    entry of [detections] has class "face" and confidence 0.85, and [count]
    is the length of [detections]. *)
Theorem successful_detection_report (argv : list string)
  (report : list (string * json)) :
  printed (run_main (detect_opencv_main argv)) = [JObj report] ->
  assoc "success" report = Some (JBool true) ->
  exists detections,
    assoc "detections" report = Some (JArr detections)
    /\ assoc "count" report = Some (JInt (Z.of_nat (List.length detections)))
    /\ Forall face_detection detections.
Proof.
  unfold run_main, detect_opencv_main. unfold_prog.
  destruct (List.length argv <? 2)%nat; simpl.
  { intros [= <-]. discriminate. }
  assert (Hreport : forall doc, detection_report doc -> [doc] = [JObj report] ->
            assoc "success" report = Some (JBool true) ->
            exists detections,
              assoc "detections" report = Some (JArr detections)
              /\ assoc "count" report = Some (JInt (Z.of_nat (List.length detections)))
              /\ Forall face_detection detections).
  { intros doc [[message ->] | (faces & image_path & ->)] [= <-]; simpl.
    - discriminate.
    - intros _. eexists; repeat split. apply detections_are_faces. }
  destruct (2 <? List.length argv)%nat;
    [destruct (py_float (nth 2%nat argv "")); simpl; [|discriminate] |];
    (destruct (3 <? List.length argv)%nat;
       [destruct (py_int (nth 3%nat argv "")); simpl; [|discriminate] |]);
    match goal with
    | |- context [detect_faces ?p ?s ?m ?w] =>
        destruct (detect_faces_report p s m w) as (doc & Hrun & Hdoc);
        rewrite Hrun; simpl; apply Hreport; exact Hdoc
    end.
Qed.

End Faces.

(** C10 on the sample cascade, which finds one face in [team.jpg]. *)
Lemma successful_detection_report_witness :
  exists report detections,
    printed (run_main (detect_opencv_main (H := sample_python) (H0 := sample_cv2)
                         ["detect_opencv.py"; "team.jpg"])) = [JObj report]
    /\ assoc "success" report = Some (JBool true)
    /\ assoc "detections" report = Some (JArr detections)
    /\ assoc "count" report = Some (JInt (Z.of_nat (List.length detections)))
    /\ Forall face_detection detections.
Proof.
  eexists.
  destruct (successful_detection_report (H := sample_python) (H0 := sample_cv2)
              ["detect_opencv.py"; "team.jpg"] _ eq_refl eq_refl)
    as (detections & Hd & Hc & Hf).
  exists detections. repeat split; [exact Hd | exact Hc | exact Hf].
Defined.

(** ** Validation before the model is used *)

Ltac unfold_flask :=
  unfold serve, predict, predict_batch, lacks_key, srv_transform, srv_predict,
    srv_predict_proba, srv_classes, error_response in *;
  unfold_prog.

#[local] Arguments lacks_key : simpl never.

Lemma lacks_key_object (fields : list (string * json)) (key : string) (w : world) :
  lacks_key (JObj fields) key w
  = (Done (match assoc key fields with Some _ => false | None => true end), w).
Proof.
  unfold lacks_key. unfold_prog.
  destruct fields as [|field rest]; [reflexivity|].
  change (truthy (JObj (field :: rest))) with true.
  change (py_in key (JObj (field :: rest)))
    with (Ok (match assoc key (field :: rest) with
              | Some _ => true
              | None => false
              end)).
  destruct (assoc key (field :: rest)); reflexivity.
Qed.

Section Validation.

Context `{Python} `{Sklearn}.

Lemma predict_main_rejects_missing_text (script_path arg : string)
  (more : list string) (input : json) :
  json_loads arg = Ok input ->
  lacks_text input ->
  let o := run_main (predict_main (script_path :: arg :: more)) in
  reports_error o /\ made_calls o = [].
Proof.
  intros Hloads Hlacks.
  unfold run_main, predict_main, report_with_type, load_model, argv1.
  unfold_prog. simpl. rewrite Hloads. simpl.
  unfold lacks_text in Hlacks.
  destruct input; simpl;
    try (repeat split; try (eexists; split; reflexivity); discriminate).
  destruct (assoc "text" fields) as [text|]; simpl.
  - rewrite Hlacks. simpl.
    repeat split; try (eexists; split; reflexivity); discriminate.
  - repeat split; try (eexists; split; reflexivity); discriminate.
Qed.

Lemma predict_rejects_missing_text (srv : server) (data : json) :
  lacks_text data \/ blank_text data ->
  (exists response,
      serve (predict srv (Ok data)) = (Done response, [])
      /\ (resp_status response = 400 \/ resp_status response = 500)
      /\ has_key "error" (resp_body response) = true)
  /\ (json_object data ->
      exists message, serve (predict srv (Ok data)) = (Done (error_response message 400), [])).
Proof.
  unfold lacks_text, blank_text, json_object.
  unfold serve, predict, srv_transform, srv_predict, srv_predict_proba,
    srv_classes, error_response.
  intros Hdata.
  destruct data as [| | | | | |fields];
    [unfold lacks_key; unfold_prog; simpl .. | unfold_prog; simpl].
  1-6: split; [repeat case_step; eexists; repeat split; eauto | try intros []].
  1: eexists; reflexivity.
  rewrite lacks_key_object.
  destruct (assoc "text" fields) as [text|] eqn:Htext; simpl.
  - assert (Hblank : truthy text = false
                     \/ exists s, text = JStr s /\ all_space s = true).
    { destruct Hdata as [Hfalsy | (fields0 & s & [= <-] & Hs & Hspace)].
      - left; exact Hfalsy.
      - right. exists s. rewrite Htext in Hs. injection Hs as ->. auto. }
    destruct Hblank as [-> | (s & -> & Hspace)]; simpl.
    + split; [eexists; repeat split; eauto | intros _; eexists; reflexivity].
    + destruct (negb (s =? "")%string); simpl; rewrite ?Hspace; simpl;
        (split; [eexists; repeat split; eauto | intros _; eexists; reflexivity]).
  - split; [eexists; repeat split; eauto | intros _; eexists; reflexivity].
Qed.

End Validation.


Section Statuses.

Context `{Python} `{Sklearn}.

Lemma predict_total (srv : server) (get_json : res json) :
  exists response made,
    serve (predict srv get_json) = (Done response, made)
    /\ (resp_status response = 200
        \/ ((resp_status response = 400 \/ resp_status response = 500)
            /\ error_body (resp_body response))).
Proof.
  unfold error_body. unfold_flask. simpl.
  repeat case_step; do 2 eexists; (split; [reflexivity|]); simpl; eauto 6.
Qed.

Lemma batch_results_total
  (texts predictions : list json) (probabilities : list (list float)) :
  (exists results, batch_results texts predictions probabilities = Ok results)
  \/ (exists e, batch_results texts predictions probabilities = Raise e).
Proof.
  destruct (batch_results texts predictions probabilities); eauto.
Qed.

Lemma predict_batch_total (srv : server) (get_json : res json) :
  exists response made,
    serve (predict_batch srv get_json) = (Done response, made)
    /\ (resp_status response = 200
        \/ ((resp_status response = 400 \/ resp_status response = 500)
            /\ error_body (resp_body response))).
Proof.
  unfold error_body. unfold_flask. simpl.
  repeat case_step; do 2 eexists; (split; [reflexivity|]); simpl; eauto 6.
Qed.

Lemma predict_batch_rejects_missing_texts (srv : server) (data : json) :
  json_object data ->
  lacks_texts data ->
  exists message,
    serve (predict_batch srv (Ok data)) = (Done (error_response message 400), []).
Proof.
  unfold json_object, lacks_texts.
  unfold serve, predict_batch, srv_transform, srv_predict, srv_predict_proba,
    error_response.
  destruct data as [| | | | | |fields]; try (intros []; fail); intros _.
  - intros _. eexists. reflexivity.
  - unfold_prog. simpl. rewrite lacks_key_object.
    unfold py_getitem.
    destruct (assoc "texts" fields) as [texts|]; simpl.
    + destruct texts; try (intros _; eexists; reflexivity). intros [].
    + intros _. eexists. reflexivity.
Qed.

Lemma views_answer_500_without_body (srv : server) (e : exn) :
  serve (predict srv (Raise e)) = (Done (error_response (exn_msg e) 500), [])
  /\ serve (predict_batch srv (Raise e))
     = (Done (error_response (exn_msg e) 500), []).
Proof. split; reflexivity. Qed.

End Statuses.

Section Agreement.

Context `{Python} `{Sklearn}.

Lemma all_space_nonempty (s : string) :
  all_space s = false -> (s =? "")%string = false.
Proof. destruct s; [discriminate | reflexivity]. Qed.

Lemma process_batch_singleton (user : json) :
  process_batch [user] = res_bind (process_user_data user) (fun r => Ok [r]).
Proof.
  simpl. destruct (process_user_data user); reflexivity.
Qed.

Lemma predict_agrees_with_batch (srv : server) (s : string) :
  all_space s = false ->
  let single := fst (serve (predict srv (Ok (JObj [("text", JStr s)])))) in
  let batch :=
    fst (serve (predict_batch srv (Ok (JObj [("texts", JArr [JStr s])])))) in
  (forall body,
      single = Done (Response body 200) ->
      exists doc,
        batch = Done (Response (JObj [("predictions", JArr [doc])]) 200)
        /\ verdict doc = verdict body
        /\ verdict doc <> None)
  /\ (forall doc,
        batch = Done (Response (JObj [("predictions", JArr [doc])]) 200) ->
        exists body,
          single = Done (Response body 200)
          /\ verdict doc = verdict body
          /\ verdict doc <> None).
Proof.
  intros Hs. pose proof (all_space_nonempty s Hs) as Hne.
  unfold_flask. unfold first_item, verdict.
  cbn -[all_space]. rewrite Hne. cbn -[all_space]. rewrite Hs. cbn.
  repeat case_step; split; intros ? [= <-]; eexists; repeat split;
    try discriminate.
Qed.

End Agreement.

Section TryBlocks.

Context `{Python} `{Sklearn} `{Onnx} `{Prophet}.





Lemma predict_view_is_try (srv : server) (get_json : res json) :
  predict srv get_json
  = try_except (predict_view_try srv get_json)
      [ExceptException (fun e => ret (error_response (exn_msg e) 500))].
Proof. reflexivity. Qed.

Lemma predict_batch_view_is_try (srv : server) (get_json : res json) :
  predict_batch srv get_json
  = try_except (predict_batch_view_try srv get_json)
      [ExceptException (fun e => ret (error_response (exn_msg e) 500))].
Proof. reflexivity. Qed.


End TryBlocks.

Section FlaskContract.

Context `{Python} `{Sklearn}.

Lemma is_str_spec (s : string) (items : list json) :
  existsb (is_str s) items = true <-> In (JStr s) items.
Proof.
  rewrite existsb_exists. split.
  - intros (item & Hin & Hitem). destruct item; try discriminate.
    apply String.eqb_eq in Hitem. subst. exact Hin.
  - intros Hin. exists (JStr s). split; [exact Hin|]. apply String.eqb_refl.
Qed.

Lemma predict_status_without_text (srv : server) (data : json) :
  lacks_text data \/ blank_text data ->
  exists message status,
    serve (predict srv (Ok data)) = (Done (error_response message status), [])
    /\ (breaks_validation data -> status = 500)
    /\ (~ breaks_validation data -> status = 400).
Proof.
  unfold lacks_text, blank_text.
  unfold serve, predict, srv_transform, srv_predict, srv_predict_proba,
    srv_classes, error_response.
  intros Hdata.
  destruct data as [| b | z | f | s | items | fields];
    [unfold lacks_key; unfold_prog; simpl .. | unfold_prog; simpl].
  - do 2 eexists. split; [reflexivity|]. tauto.
  - destruct b; simpl; do 2 eexists; (split; [reflexivity|]);
      split; congruence.
  - destruct (z =? 0) eqn:Hz; simpl; do 2 eexists; (split; [reflexivity|]);
      split; intros; try reflexivity; lia.
  - destruct (PrimFloat.eqb f 0) eqn:Hf; simpl; do 2 eexists;
      (split; [reflexivity|]); split; congruence.
  - destruct (negb (s =? "")%string) eqn:Hs; simpl.
    + destruct (contains "text" s) eqn:Hc; simpl; do 2 eexists;
        (split; [reflexivity|]); split; intros Hin; try reflexivity.
      * exfalso. apply Hin. apply contains_spec. exact Hc.
      * apply contains_spec in Hin. congruence.
    + apply negb_false_iff in Hs. apply String.eqb_eq in Hs. subst s.
      do 2 eexists. split; [reflexivity|]. split; intros Hin; [|reflexivity].
      destruct Hin as (before & after & Heq).
      destruct before; discriminate Heq.
  - destruct items as [|item items]; simpl.
    + do 2 eexists. split; [reflexivity|]. tauto.
    + destruct (is_str "text" item || existsb (is_str "text") items) eqn:Hc;
        simpl; do 2 eexists; (split; [reflexivity|]); split; intros Hin;
        try reflexivity.
      * exfalso. apply Hin. apply (is_str_spec "text" (item :: items)).
        exact Hc.
      * apply (is_str_spec "text" (item :: items)) in Hin. simpl in Hin.
        congruence.
  - assert (Hno : forall status : Z, (False -> status = 500) /\ (~ False -> status = 400)
                                  <-> status = 400) by (intros; tauto).
    rewrite lacks_key_object.
    destruct (assoc "text" fields) as [text|] eqn:Htext; simpl;
      [|do 2 eexists; split; [reflexivity|]; tauto].
    assert (Hblank : truthy text = false
                     \/ exists s, text = JStr s /\ all_space s = true).
    { destruct Hdata as [Hfalsy | (fields0 & s & [= <-] & Hs & Hspace)].
      - left; exact Hfalsy.
      - right. exists s. rewrite Htext in Hs. injection Hs as ->. auto. }
    destruct Hblank as [-> | (s & -> & Hspace)]; simpl;
      [do 2 eexists; split; [reflexivity|]; tauto|].
    destruct (negb (s =? "")%string); simpl; rewrite ?Hspace; simpl;
      do 2 eexists; (split; [reflexivity|]); tauto.
Qed.

(** C5, as the code implements it. A document without a non-empty [text]
    field makes predict.py fail with an error report before [load_model],
    [transform] or [predict] is called. A body without a [text] field, or with
    an empty or blank one, makes [POST /predict] answer with an error before
    any model call: with status 400, except for the bodies on which the
    validation itself raises (a number other than 0, [true], a string or an
    array that contains [text]), which get status 500. *)
Theorem missing_text_rejected_before_model (script_path arg : string)
  (more : list string) (input : json) (srv : server) (data : json) :
  (json_loads arg = Ok input ->
   lacks_text input ->
   let o := run_main (predict_main (script_path :: arg :: more)) in
   reports_error o /\ made_calls o = [])
  /\ (lacks_text data \/ blank_text data ->
      exists message status,
        serve (predict srv (Ok data)) = (Done (error_response message status), [])
        /\ (breaks_validation data -> status = 500)
        /\ (~ breaks_validation data -> status = 400)).
Proof.
  split.
  - apply predict_main_rejects_missing_text.
  - apply predict_status_without_text.
Qed.

Lemma view_answers_exceptions (attempt : script response) (e : exn) (w : world) :
  attempt (World [] []) = (Raised e, w) ->
  serve (try_except attempt
           [ExceptException (fun e => ret (error_response (exn_msg e) 500))])
  = (Done (error_response (exn_msg e) 500), calls w).
Proof.
  intros Hrun. unfold serve, try_except. rewrite Hrun. reflexivity.
Qed.

Lemma predict_answers_prediction (clf : classifier features)
  (vec : vectorizer features) (fields : list (string * json)) (s : string) :
  assoc "text" fields = Some (JStr s) ->
  all_space s = false ->
  fst (serve (predict (Server (Some clf) (Some vec)) (Ok (JObj fields))))
  = http_answer (prediction clf vec (JStr s)).
Proof.
  intros Htext Hspace.
  assert (Hs : negb (s =? "")%string = true).
  { destruct s; [discriminate | reflexivity]. }
  unfold serve, predict, prediction, http_answer, srv_transform, srv_predict,
    srv_predict_proba, srv_classes, error_response.
  unfold_prog. simpl. rewrite lacks_key_object.
  unfold py_getitem. rewrite Htext. simpl. rewrite Hs. simpl. rewrite Hspace. simpl.
  destruct (v_transform vec [JStr s]) as [X | e]; simpl; [|reflexivity].
  destruct (c_predict clf X) as [predictions | e]; simpl; [|reflexivity].
  destruct (first_item predictions) as [label | e]; simpl; [|reflexivity].
  destruct (c_predict_proba clf X) as [rows | e]; simpl; [|reflexivity].
  destruct (first_item rows) as [row | e]; simpl; [|reflexivity].
  destruct (row_max row) as [confidence | e]; simpl; reflexivity.
Qed.

Lemma predict_batch_answers_prediction (clf : classifier features)
  (vec : vectorizer features) (fields : list (string * json)) (items : list json) :
  assoc "texts" fields = Some (JArr items) ->
  fst (serve (predict_batch (Server (Some clf) (Some vec)) (Ok (JObj fields))))
  = http_answer (batch_prediction clf vec items).
Proof.
  intros Htexts.
  unfold serve, predict_batch, batch_prediction, http_answer, srv_transform,
    srv_predict, srv_predict_proba, error_response.
  unfold_prog. simpl. rewrite lacks_key_object.
  unfold py_getitem. rewrite Htexts. simpl.
  destruct (v_transform vec items) as [X | e]; simpl; [|reflexivity].
  destruct (c_predict clf X) as [predictions | e]; simpl; [|reflexivity].
  destruct (c_predict_proba clf X) as [rows | e]; simpl; [|reflexivity].
  destruct (batch_results items predictions rows) as [results | e]; simpl;
    reflexivity.
Qed.

Lemma predict_rejects_other_text (srv : server) (fields : list (string * json))
  (text : json) :
  assoc "text" fields = Some text ->
  truthy text = true ->
  (forall s, text <> JStr s) ->
  serve (predict srv (Ok (JObj fields)))
  = (Done (error_response (exn_msg (no_attribute text "strip")) 500), []).
Proof.
  intros Htext Htruthy Hother.
  unfold serve, predict, error_response. unfold_prog. simpl.
  rewrite lacks_key_object. unfold py_getitem. rewrite Htext. simpl.
  rewrite Htruthy. simpl.
  destruct text; try reflexivity. exfalso. eapply Hother. reflexivity.
Qed.

(** C7, as the server implements it. Every request is answered with status
    200, or with status 400 or 500 and a body [{error: message}]. For a body
    that is a JSON object, [POST /predict] answers 400 when [text] is missing,
    empty or white space only, and [POST /predict/batch] answers 400 when
    [texts] is missing or not an array. Every exception raised under the
    [try] of a view is answered with status 500 and its message: a request
    without a readable JSON body, a [text] that is not a string, and, on a
    server with both models loaded, every failure of a call into the model;
    the answer is 200 with the prediction exactly when no call fails. *)
Theorem http_status_contract (srv : server) (get_json : res json) :
  (exists response made,
      serve (predict srv get_json) = (Done response, made)
      /\ (resp_status response = 200
          \/ ((resp_status response = 400 \/ resp_status response = 500)
              /\ error_body (resp_body response))))
  /\ (exists response made,
        serve (predict_batch srv get_json) = (Done response, made)
        /\ (resp_status response = 200
            \/ ((resp_status response = 400 \/ resp_status response = 500)
                /\ error_body (resp_body response))))
  /\ (forall data,
        get_json = Ok data -> json_object data ->
        lacks_text data \/ blank_text data ->
        exists message,
          serve (predict srv get_json) = (Done (error_response message 400), []))
  /\ (forall data,
        get_json = Ok data -> json_object data -> lacks_texts data ->
        exists message,
          serve (predict_batch srv get_json)
          = (Done (error_response message 400), []))
  /\ (forall e w,
        predict_view_try srv get_json (World [] []) = (Raised e, w) ->
        serve (predict srv get_json)
        = (Done (error_response (exn_msg e) 500), calls w))
  /\ (forall e w,
        predict_batch_view_try srv get_json (World [] []) = (Raised e, w) ->
        serve (predict_batch srv get_json)
        = (Done (error_response (exn_msg e) 500), calls w))
  /\ (forall e,
        get_json = Raise e ->
        serve (predict srv get_json) = (Done (error_response (exn_msg e) 500), [])
        /\ serve (predict_batch srv get_json)
           = (Done (error_response (exn_msg e) 500), []))
  /\ (forall fields text,
        get_json = Ok (JObj fields) ->
        assoc "text" fields = Some text ->
        truthy text = true ->
        (forall s, text <> JStr s) ->
        serve (predict srv get_json)
        = (Done (error_response (exn_msg (no_attribute text "strip")) 500), []))
  /\ (forall clf vec fields s,
        srv = Server (Some clf) (Some vec) ->
        get_json = Ok (JObj fields) ->
        assoc "text" fields = Some (JStr s) -> all_space s = false ->
        fst (serve (predict srv get_json))
        = http_answer (prediction clf vec (JStr s)))
  /\ (forall clf vec fields items,
        srv = Server (Some clf) (Some vec) ->
        get_json = Ok (JObj fields) ->
        assoc "texts" fields = Some (JArr items) ->
        fst (serve (predict_batch srv get_json))
        = http_answer (batch_prediction clf vec items)).
Proof.
  split; [apply predict_total|].
  split; [apply predict_batch_total|].
  split.
  { intros data -> Hobject Hdata.
    apply (predict_rejects_missing_text srv data Hdata). exact Hobject. }
  split.
  { intros data ->. apply predict_batch_rejects_missing_texts. }
  split.
  { intros e w. rewrite predict_view_is_try. apply view_answers_exceptions. }
  split.
  { intros e w. rewrite predict_batch_view_is_try. apply view_answers_exceptions. }
  split.
  { intros e ->. apply views_answer_500_without_body. }
  split.
  { intros fields text ->. apply predict_rejects_other_text. }
  split.
  { intros clf vec fields s -> ->. apply predict_answers_prediction. }
  intros clf vec fields items -> ->. apply predict_batch_answers_prediction.
Qed.

(** C2, as the code implements it. For a text that is not empty or white
    space only, [POST /predict] on [{"text": t}] answers 200 exactly when
    [POST /predict/batch] on [{"texts": [t]}] answers 200 with one prediction,
    and the two carry the same sentiment and confidence; process.py maps the
    array [[u]] to the one-element list holding [process_user_data(u)]. *)
Theorem single_and_batch_agree (srv : server) (s : string) (user : json)
  (script_path arg : string) (more : list string) :
  all_space s = false ->
  let single := fst (serve (predict srv (Ok (JObj [("text", JStr s)])))) in
  let batch :=
    fst (serve (predict_batch srv (Ok (JObj [("texts", JArr [JStr s])])))) in
  (forall body,
      single = Done (Response body 200) ->
      exists doc,
        batch = Done (Response (JObj [("predictions", JArr [doc])]) 200)
        /\ verdict doc = verdict body
        /\ verdict doc <> None)
  /\ (forall doc,
        batch = Done (Response (JObj [("predictions", JArr [doc])]) 200) ->
        exists body,
          single = Done (Response body 200)
          /\ verdict doc = verdict body
          /\ verdict doc <> None)
  /\ process_batch [user] = res_bind (process_user_data user) (fun r => Ok [r])
  /\ (forall r,
        json_loads arg = Ok (JArr [user]) ->
        process_user_data user = Ok r ->
        let o := run_main (process_main (script_path :: arg :: more)) in
        printed o = [JArr [r]] /\ exit_code o = 0).
Proof.
  intros Hs single batch.
  destruct (predict_agrees_with_batch srv s Hs) as [Hforth Hback].
  split; [exact Hforth|]. split; [exact Hback|].
  split; [apply process_batch_singleton|].
  intros r Hloads Hr.
  unfold run_main, process_main, argv1. unfold_prog. simpl.
  rewrite Hloads. simpl. rewrite Hr. simpl. split; reflexivity.
Qed.

End FlaskContract.

(** C5 on the sample decoder and model: the argument [{text: empty}] and the
    body [{}]. *)
Lemma missing_text_rejected_before_model_witness :
  (let o := run_main (predict_main (H := sample_python) (H0 := sample_sklearn)
                        ["predict.py"; "{" ++ quoted "text" ++ ": " ++ quoted "" ++ "}"]) in
   reports_error o /\ made_calls o = [])
  /\ exists message,
       serve (predict sample_server (Ok (JObj [])))
       = (Done (error_response message 400), []).
Proof.
  destruct (missing_text_rejected_before_model (H := sample_python)
              (H0 := sample_sklearn) "predict.py"
              ("{" ++ quoted "text" ++ ": " ++ quoted "" ++ "}") []
              (JObj [("text", JStr "")]) sample_server (JObj []))
    as [Hcli Hhttp].
  split.
  - exact (Hcli eq_refl eq_refl).
  - destruct (Hhttp (or_introl I)) as (message & status & Hrun & _ & Hstatus).
    exists message. rewrite Hrun, (Hstatus (fun H => H)). reflexivity.
Defined.

(** C5, counterexample. The body [5] has no [text] field and is answered with
    status 500, not 400: the test ['text' not in data] raises [TypeError]. *)
Lemma number_body_gets_500 :
  lacks_text (JInt 5)
  /\ serve (predict sample_server (Ok (JInt 5)))
     = (Done (error_response "argument of type 'int' is not iterable" 500), [])
  /\ resp_status (error_response "argument of type 'int' is not iterable" 500)
     <> 400.
Proof.
  split; [exact I|]. split; [reflexivity|]. discriminate.
Qed.

(** C7, counterexample. A [text] field holding the number 5 is answered with
    status 500, not 400. *)
Lemma non_string_text_gets_500 :
  exists response,
    serve (predict sample_server (Ok (JObj [("text", JInt 5)])))
    = (Done response, [])
    /\ resp_body response
       = JObj [("error", JStr "'int' object has no attribute 'strip'")]
    /\ resp_status response = 500
    /\ resp_status response <> 400.
Proof.
  eexists. split; [reflexivity|]. repeat split. discriminate.
Qed.

(** C2, counterexample. For the empty text the single path answers 400
    without a prediction, the batch path answers 200 with one. *)
Lemma empty_text_single_and_batch_differ :
  serve (predict sample_server (Ok (JObj [("text", JStr "")])))
  = (Done (error_response "Text cannot be empty" 400), [])
  /\ exists doc made,
       serve (predict_batch sample_server (Ok (JObj [("texts", JArr [JStr ""])])))
       = (Done (Response (JObj [("predictions", JArr [doc])]) 200), made)
       /\ verdict doc = Some (JStr "negative", JFloat 0.75%float).
Proof.
  split; [reflexivity|]. do 2 eexists. split; reflexivity.
Qed.

(** C2 on the sample model, for the text [good value]. *)
Lemma single_and_batch_agree_witness :
  all_space "good value" = false
  /\ exists body doc,
       fst (serve (predict sample_server (Ok (JObj [("text", JStr "good value")]))))
       = Done (Response body 200)
       /\ fst (serve (predict_batch sample_server
                        (Ok (JObj [("texts", JArr [JStr "good value"])]))))
          = Done (Response (JObj [("predictions", JArr [doc])]) 200)
       /\ verdict doc = verdict body
       /\ verdict doc = Some (JStr "positive", JFloat 0.75%float).
Proof.
  split; [reflexivity|].
  destruct (single_and_batch_agree (H := sample_python) (H0 := sample_sklearn)
              sample_server "good value" JNull "process.py" "[null]" [] eq_refl)
    as (Hforth & _).
  eexists.
  destruct (Hforth _ eq_refl) as (doc & Hbatch & Hsame & _).
  exists doc. split; [reflexivity|]. split; [exact Hbatch|]. split; [exact Hsame|].
  rewrite Hsame. reflexivity.
Defined.

(** ** worker.py *)

Ltac unfold_worker :=
  unfold worker_iteration, store_task, task_setitem, read_task, read_task_id,
    task_id_in_locals, assign_task, assign_task_id, setex, brpop in *;
  unfold_prog.

Lemma assoc_set_same (k : string) (v : json) (fields : list (string * json)) :
  assoc k (assoc_set k v fields) = Some v.
Proof.
  induction fields as [|[k' v'] rest IH]; simpl.
  - rewrite String.eqb_refl. reflexivity.
  - destruct (String.eqb k k') eqn:Hk; simpl; rewrite Hk; auto.
Qed.

Lemma assoc_set_other (k k' : string) (v : json) (fields : list (string * json)) :
  k <> k' -> assoc k (assoc_set k' v fields) = assoc k fields.
Proof.
  intros Hne. induction fields as [|[k0 v0] rest IH]; simpl.
  - destruct (String.eqb_spec k k'); [contradiction | reflexivity].
  - destruct (String.eqb_spec k' k0) as [-> | Hk0]; simpl.
    + destruct (String.eqb_spec k k0); [contradiction | reflexivity].
    + destruct (String.eqb k k0); auto.
Qed.

(** The records of [worker_iteration_on_task] carry the statuses and time
    stamps of the life cycle, and keep the fields written before. *)
Lemma task_record_statuses (fields : list (string * json)) (t0 t1 : Z)
  (message : string) :
  let processing :=
    assoc_set "started_at" (JInt t0) (assoc_set "status" (JStr "processing") fields) in
  let completed_record :=
    assoc_set "completed_at" (JInt t1)
      (assoc_set "status" (JStr "completed") processing) in
  let failed_record :=
    assoc_set "error" (JStr message) (assoc_set "status" (JStr "failed") processing) in
  (assoc "status" processing = Some (JStr "processing")
   /\ assoc "started_at" processing = Some (JInt t0))
  /\ (assoc "status" completed_record = Some (JStr "completed")
      /\ assoc "started_at" completed_record = Some (JInt t0)
      /\ assoc "completed_at" completed_record = Some (JInt t1))
  /\ (assoc "status" failed_record = Some (JStr "failed")
      /\ assoc "started_at" failed_record = Some (JInt t0)
      /\ assoc "error" failed_record = Some (JStr message)).
Proof.
  cbv zeta.
  repeat split;
    repeat first [ rewrite assoc_set_same; reflexivity
                 | rewrite assoc_set_other by discriminate ].
Qed.

Section Worker.

Context `{Python} `{Sklearn}.

(** What the worker writes for a payload that decodes to a task record with
    the fields [id], [type] and [data]. *)
Lemma worker_iteration_on_task (wm : worker_model) (p : pass) (st : worker_state)
  (payload : string) (rest : list string) (fields : list (string * json))
  (id type data : json) :
  ctrl_c p = false ->
  ml_tasks st = payload :: rest ->
  json_loads payload = Ok (JObj fields) ->
  assoc "id" fields = Some id ->
  assoc "type" fields = Some type ->
  assoc "data" fields = Some data ->
  let processing :=
    assoc_set "started_at" (JInt (started p))
      (assoc_set "status" (JStr "processing") fields) in
  let key := "task:" ++ py_str id in
  exists st' final,
    worker_iteration wm p st = (Done Continue, st')
    /\ ml_tasks st' = rest
    /\ var_task st' = Some (JObj final)
    /\ var_task_id st' = Some id
    /\ match process_task wm (JObj processing) with
       | Ok result =>
           final = assoc_set "completed_at" (JInt (completed p))
                     (assoc_set "status" (JStr "completed") processing)
           /\ setex_log st'
              = (setex_log st
                 ++ [Setex key 3600 (JObj processing);
                     Setex ("result:" ++ py_str id) 3600 result;
                     Setex key 3600 (JObj final)])%list
       | Raise e =>
           final = assoc_set "error" (JStr (exn_msg e))
                     (assoc_set "status" (JStr "failed") processing)
           /\ setex_log st'
              = (setex_log st
                 ++ [Setex key 3600 (JObj processing);
                     Setex key 3600 (JObj final)])%list
       end.
Proof.
  intros Hc Hq Hloads Hid Htype Hdata processing key.
  destruct st as [queue store log task task_id]. simpl in Hq. subst queue.
  unfold_worker. rewrite Hc. simpl. rewrite Hloads. simpl.
  rewrite Hid. simpl. rewrite Htype. simpl.
  fold processing.
  destruct (process_task wm (JObj processing)) as [result | e]; simpl.
  - do 2 eexists. repeat split. rewrite <- !app_assoc. reflexivity.
  - do 2 eexists. repeat split. rewrite <- !app_assoc. reflexivity.
Qed.

Lemma worker_iteration_writes (wm : worker_model) (p : pass) (st : worker_state) :
  exists new,
    setex_log (snd (worker_iteration wm p st)) = (setex_log st ++ new)%list
    /\ Forall well_keyed new
    /\ only_popped (ml_tasks st) (ml_tasks (snd (worker_iteration wm p st))).
Proof.
  unfold well_keyed, only_popped.
  destruct st as [queue store log task task_id].
  unfold_worker. simpl.
  repeat case_step;
    first [ exists (@nil setex_call); split; [symmetry; apply app_nil_r|]
          | rewrite <- ?app_assoc; eexists; split; [reflexivity|] ];
    (split;
     [ repeat constructor; simpl; eauto
     | first [ exists (@nil string); reflexivity
             | eexists [_]; reflexivity ] ]).
Qed.

Lemma worker_loop_writes (wm : worker_model) (passes : list pass)
  (st : worker_state) :
  exists new,
    setex_log (snd (worker_loop wm passes st)) = (setex_log st ++ new)%list
    /\ Forall well_keyed new
    /\ only_popped (ml_tasks st) (ml_tasks (snd (worker_loop wm passes st))).
Proof.
  revert st. induction passes as [|p passes IH]; intros st; simpl.
  - exists []. split; [symmetry; apply app_nil_r|]. split; [constructor|].
    exists []. reflexivity.
  - destruct (worker_iteration_writes wm p st) as (new1 & Hlog1 & Hkeys1 & Hq1).
    unfold bind.
    destruct (worker_iteration wm p st) as [[control | e | code |] st1];
      simpl in Hlog1, Hq1; simpl; eauto.
    destruct control; simpl; eauto.
    destruct (IH st1) as (new2 & Hlog2 & Hkeys2 & Hq2).
    exists (new1 ++ new2)%list. split; [|split].
    + rewrite Hlog2, Hlog1, app_assoc. reflexivity.
    + apply Forall_app; auto.
    + destruct Hq1 as [popped1 ->]. destruct Hq2 as [popped2 ->].
      exists (popped1 ++ popped2)%list. rewrite app_assoc. reflexivity.
Qed.

End Worker.

(** C3 at a failing input. The queue holds a task and then a payload that is
    not JSON: the worker completes the task, and in the next pass, where
    [task] and [task_id] still hold the finished task, rewrites its record
    with status [failed]: the record goes processing, completed, failed. *)
Theorem completed_record_rewritten_as_failed :
  let st := snd (worker_loop (H := sample_python) sample_worker
                   [Pass false 100 101; Pass false 200 201]
                   (worker_start [payload_task_1; "not json"])) in
  map (fun c => (setex_key c, status_of (setex_value c))) (setex_log st)
  = [("task:1", Some (JStr "processing"));
     ("result:1", None);
     ("task:1", Some (JStr "completed"));
     ("task:1", Some (JStr "failed"))]
  /\ redis st !! "task:1"
     = Some (3600,
             JObj [("id", JInt 1); ("type", JStr "image_classification");
                   ("data", JObj []); ("status", JStr "failed");
                   ("started_at", JInt 100); ("completed_at", JInt 101);
                   ("error", JStr "Expecting value: line 1 column 1 (char 0)")])
  /\ ml_tasks st = [].
Proof.
  vm_compute. repeat split.
Qed.

(** C6 at a failing input. The queue holds task 1 and then a document without
    [id]: the second document is stored, with status [failed], under the key
    [task:1] of the task processed before it. *)
Theorem record_stored_under_previous_id :
  let st := snd (worker_loop (H := sample_python) sample_worker
                   [Pass false 100 101; Pass false 200 201]
                   (worker_start [payload_task_1; payload_without_id])) in
  json_loads (Python := sample_python) payload_without_id
  = Ok (JObj [("type", JStr "image_classification")])
  /\ nth_error (setex_log st) 3
     = Some (Setex "task:1" 3600
               (JObj [("type", JStr "image_classification");
                      ("status", JStr "failed"); ("error", JStr "'id'")]))
  /\ redis st !! "task:1"
     = Some (3600,
             JObj [("type", JStr "image_classification");
                   ("status", JStr "failed"); ("error", JStr "'id'")]).
Proof.
  vm_compute. repeat split.
Qed.

(** * Further properties of the scripts *)

(** ** worker.py *)

Ltac assoc_lookup :=
  repeat first [ rewrite assoc_set_same; reflexivity
               | rewrite assoc_set_other by discriminate ].

Section WorkerMore.

Context `{Python} `{Sklearn}.

(** X1. A payload that decodes to a task record with [id], [type] and [data]
    is taken off the queue and gives two or three [setex] calls: the record
    with status [processing] and [started_at] under [task:<id>], then either
    the result under [result:<id>] and the record with status [completed] and
    [completed_at], or the record with status [failed] and the message of the
    exception. Every record keeps the [id] and the [started_at] written
    before. *)
Theorem task_life_cycle (wm : worker_model) (p : pass) (st : worker_state)
  (payload : string) (rest : list string) (fields : list (string * json))
  (id type data : json) :
  ctrl_c p = false ->
  ml_tasks st = payload :: rest ->
  json_loads payload = Ok (JObj fields) ->
  assoc "id" fields = Some id ->
  assoc "type" fields = Some type ->
  assoc "data" fields = Some data ->
  let st' := snd (worker_iteration wm p st) in
  let task_key := "task:" ++ py_str id in
  fst (worker_iteration wm p st) = Done Continue
  /\ ml_tasks st' = rest
  /\ exists first last,
       assoc "status" first = Some (JStr "processing")
       /\ assoc "started_at" first = Some (JInt (started p))
       /\ assoc "id" first = Some id
       /\ assoc "started_at" last = Some (JInt (started p))
       /\ assoc "id" last = Some id
       /\ ((exists result,
              process_task wm (JObj first) = Ok result
              /\ setex_log st'
                 = (setex_log st
                    ++ [Setex task_key 3600 (JObj first);
                        Setex ("result:" ++ py_str id) 3600 result;
                        Setex task_key 3600 (JObj last)])%list
              /\ assoc "status" last = Some (JStr "completed")
              /\ assoc "completed_at" last = Some (JInt (completed p)))
           \/ (exists e,
                 process_task wm (JObj first) = Raise e
                 /\ setex_log st'
                    = (setex_log st
                       ++ [Setex task_key 3600 (JObj first);
                           Setex task_key 3600 (JObj last)])%list
                 /\ assoc "status" last = Some (JStr "failed")
                 /\ assoc "error" last = Some (JStr (exn_msg e)))).
Proof.
  intros Hc Hq Hloads Hid Htype Hdata st' task_key.
  destruct (worker_iteration_on_task wm p st payload rest fields id type data
              Hc Hq Hloads Hid Htype Hdata)
    as (st1 & final & Hrun & Hrest & _ & _ & Hcases).
  subst st'. rewrite Hrun. simpl.
  split; [reflexivity|]. split; [exact Hrest|].
  set (first := assoc_set "started_at" (JInt (started p))
                  (assoc_set "status" (JStr "processing") fields)) in *.
  exists first, final.
  assert (Hfirst : assoc "status" first = Some (JStr "processing")
                   /\ assoc "started_at" first = Some (JInt (started p))
                   /\ assoc "id" first = Some id).
  { unfold first. repeat split;
      repeat first [ rewrite assoc_set_same; reflexivity
                   | rewrite assoc_set_other by discriminate ].
    exact Hid. }
  destruct Hfirst as (Hs & Ht & Hi).
  destruct (process_task wm (JObj first)) as [result | e];
    destruct Hcases as [-> Hlog];
    (repeat split; [exact Hs | exact Ht | exact Hi | | |]);
    try (repeat first [ rewrite assoc_set_same; reflexivity
                      | rewrite assoc_set_other by discriminate ]; assumption).
  - left. exists result. repeat split; [exact Hlog | |];
      repeat first [ rewrite assoc_set_same; reflexivity
                   | rewrite assoc_set_other by discriminate ].
  - right. exists e. repeat split; [exact Hlog | |];
      repeat first [ rewrite assoc_set_same; reflexivity
                   | rewrite assoc_set_other by discriminate ].
Qed.

(** X2. Whatever else a payload holds, when it decodes to an object with an
    [id] the pass ends with a record for that id in the store: [task:<id>]
    holds, with the expiry 3600, the record the local variable [task] is bound
    to, it carries the [id], and its status is [completed] or [failed]. A
    missing [type] or [data] and a failure of the processing all end in
    [failed]. *)
Theorem task_with_id_is_recorded (wm : worker_model) (p : pass)
  (st : worker_state) (payload : string) (rest : list string)
  (fields : list (string * json)) (id : json) :
  ctrl_c p = false ->
  ml_tasks st = payload :: rest ->
  json_loads payload = Ok (JObj fields) ->
  assoc "id" fields = Some id ->
  let st' := snd (worker_iteration wm p st) in
  fst (worker_iteration wm p st) = Done Continue
  /\ ml_tasks st' = rest
  /\ var_task_id st' = Some id
  /\ exists final,
       redis st' !! ("task:" ++ py_str id) = Some (3600, JObj final)
       /\ var_task st' = Some (JObj final)
       /\ assoc "id" final = Some id
       /\ (assoc "status" final = Some (JStr "completed")
           \/ assoc "status" final = Some (JStr "failed")).
Proof.
  intros Hc Hq Hloads Hid st'. subst st'.
  destruct st as [queue store log task task_id]. simpl in Hq. subst queue.
  unfold_worker. rewrite Hc. simpl. rewrite Hloads. simpl.
  rewrite Hid. simpl.
  destruct (assoc "type" fields) as [type|] eqn:Htype; simpl.
  - match goal with
    | |- context [process_task wm ?t] =>
        destruct (process_task wm t) as [result | e]; simpl
    end;
      (repeat split; eexists; split; [apply lookup_insert_eq|];
       split; [reflexivity|]; split;
       [ assoc_lookup; exact Hid
       | solve [ left; assoc_lookup | right; assoc_lookup ] ]).
  - repeat split. eexists. split; [apply lookup_insert_eq|].
    split; [reflexivity|]. split.
    + assoc_lookup. exact Hid.
    + right. assoc_lookup.
Qed.

(** X3. While no task with an id has been seen ([task_id] is unbound), a
    payload that is not JSON, or that decodes to a document without [id], is
    taken off the queue and leaves no trace: nothing is written, and the
    worker goes on. *)
Theorem first_bad_payload_is_dropped (wm : worker_model) (p : pass)
  (st : worker_state) (payload : string) (rest : list string) :
  ctrl_c p = false ->
  ml_tasks st = payload :: rest ->
  var_task_id st = None ->
  (forall doc id, json_loads payload = Ok doc -> py_getitem doc "id" <> Ok id) ->
  let st' := snd (worker_iteration wm p st) in
  fst (worker_iteration wm p st) = Done Continue
  /\ ml_tasks st' = rest
  /\ setex_log st' = setex_log st
  /\ redis st' = redis st
  /\ var_task_id st' = None.
Proof.
  intros Hc Hq Hid Hbad st'. subst st'.
  destruct st as [queue store log task task_id]. simpl in *. subst queue task_id.
  unfold_worker. rewrite Hc. simpl.
  destruct (json_loads payload) as [doc | e] eqn:Hloads; simpl.
  - destruct (py_getitem doc "id") as [id | e] eqn:Hget; simpl.
    + exfalso. apply (Hbad doc id); [reflexivity | exact Hget].
    + repeat split.
  - repeat split.
Qed.

(** X4. Once some task has been seen, a payload that decodes to a JSON value
    other than an object ends the worker: the handler finds the id of the
    earlier task among the locals and assigns to [task['status']], which
    raises [TypeError] outside the [try]. The exception leaves the loop,
    nothing is written, and the later passes do not run. *)
Theorem non_object_payload_stops_worker (wm : worker_model) (p : pass)
  (passes : list pass) (st : worker_state) (payload : string)
  (rest : list string) (doc previous : json) :
  ctrl_c p = false ->
  ml_tasks st = payload :: rest ->
  json_loads payload = Ok doc ->
  (forall fields, doc <> JObj fields) ->
  var_task_id st = Some previous ->
  exists e,
    exn_cls e = TypeError
    /\ worker_loop wm (p :: passes) st
       = (Raised e,
          WorkerState rest (redis st) (setex_log st) (Some doc) (Some previous)).
Proof.
  intros Hc Hq Hloads Hdoc Hid.
  destruct st as [queue store log task task_id]. simpl in *. subst queue task_id.
  unfold_worker. rewrite Hc. simpl. rewrite Hloads.
  destruct doc; simpl; try (eexists; split; [|reflexivity]; reflexivity).
  exfalso. eapply Hdoc. reflexivity.
Qed.

(** X5. Over a whole run, from the connection on, every [setex] the worker
    makes has the expiry 3600 and a key [task:<id>] or [result:<id>], and the
    queue only loses payloads from its head: nothing is pushed back. *)
Theorem worker_run_writes (wm : worker_model) (passes : list pass)
  (payloads : list string) :
  let st := snd (worker_loop wm passes (worker_start payloads)) in
  Forall well_keyed (setex_log st) /\ only_popped payloads (ml_tasks st).
Proof.
  intros st. subst st.
  destruct (worker_loop_writes wm passes (worker_start payloads))
    as (new & Hlog & Hkeys & Hqueue).
  simpl in Hlog, Hqueue. rewrite Hlog. split; assumption.
Qed.

(** X6. With the pickled model loaded, the worker's
    [process_sentiment_analysis] and predict.py's [predict_sentiment] agree on
    the text of the task: when the script returns a document, the worker
    returns the same text, sentiment and confidence (without [all_scores]);
    when the script raises, the worker raises the same exception. *)
Theorem worker_agrees_with_predict_script (clf : classifier features)
  (vec : vectorizer features) (fields : list (string * json)) (w : world) :
  let text := match assoc "text" fields with Some x => x | None => JStr "" end in
  let answer :=
    process_sentiment_analysis (WorkerModel (Some clf) (Some vec)) (JObj fields) in
  match fst (predict_sentiment text clf vec w) with
  | Done doc =>
      exists sentiment confidence,
        answer = Ok (JObj [("text", text); ("sentiment", sentiment);
                           ("confidence", confidence)])
        /\ verdict doc = Some (sentiment, confidence)
  | Raised e => answer = Raise e
  | SystemExit _ | KeyboardInterrupt => False
  end.
Proof.
  intros text answer. subst answer.
  unfold process_sentiment_analysis, predict_sentiment. unfold_prog. simpl.
  fold text.
  destruct (v_transform vec [text]) as [X | e]; simpl; [|reflexivity].
  destruct (c_predict clf X) as [predictions | e]; simpl; [|reflexivity].
  destruct (first_item predictions) as [prediction | e]; simpl; [|reflexivity].
  destruct (c_predict_proba clf X) as [rows | e]; simpl; [|reflexivity].
  destruct (first_item rows) as [row | e]; simpl; [|reflexivity].
  destruct (row_max row) as [confidence | e]; simpl; [|reflexivity].
  do 2 eexists. split; reflexivity.
Qed.

End WorkerMore.

(** X1 on the first sample task. *)
Lemma task_life_cycle_witness :
  let st' := snd (worker_iteration (H := sample_python) sample_worker
                    (Pass false 100 101) (worker_start [payload_task_1])) in
  ml_tasks st' = [] /\ List.length (setex_log st') = 3%nat.
Proof.
  destruct (task_life_cycle (H := sample_python) sample_worker
              (Pass false 100 101) (worker_start [payload_task_1])
              payload_task_1 []
              [("id", JInt 1); ("type", JStr "image_classification");
               ("data", JObj [])] (JInt 1) (JStr "image_classification") (JObj []))
    as (_ & Hq & _); try reflexivity.
  split; [exact Hq | reflexivity].
Defined.

(** X3 on a fresh worker and the payload [not json]. *)
Lemma first_bad_payload_is_dropped_witness :
  let st := worker_start ["not json"] in
  let st' := snd (worker_iteration (H := sample_python) sample_worker
                    (Pass false 100 101) st) in
  ml_tasks st' = [] /\ setex_log st' = [] /\ var_task_id st' = None.
Proof.
  destruct (first_bad_payload_is_dropped (H := sample_python) sample_worker
              (Pass false 100 101) (worker_start ["not json"]) "not json" [])
    as (_ & Hq & Hlog & _ & Hid).
  - reflexivity.
  - reflexivity.
  - reflexivity.
  - intros doc id Hloads. vm_compute in Hloads. discriminate.
  - repeat split; assumption.
Defined.

(** X2 on the first sample task. *)
Lemma task_with_id_is_recorded_witness :
  let st' := snd (worker_iteration (H := sample_python) sample_worker
                    (Pass false 100 101) (worker_start [payload_task_1])) in
  exists final,
    redis st' !! "task:1" = Some (3600, JObj final)
    /\ (assoc "status" final = Some (JStr "completed")
        \/ assoc "status" final = Some (JStr "failed")).
Proof.
  destruct (task_with_id_is_recorded (H := sample_python) sample_worker
              (Pass false 100 101) (worker_start [payload_task_1])
              payload_task_1 []
              [("id", JInt 1); ("type", JStr "image_classification");
               ("data", JObj [])] (JInt 1))
    as (_ & _ & _ & final & Hstore & _ & _ & Hstatus);
    try reflexivity.
  exists final. split; assumption.
Defined.

(** X4 on the payload [5] after the first sample task. *)
Lemma non_object_payload_stops_worker_witness :
  let st := snd (worker_loop (H := sample_python) sample_worker
                   [Pass false 100 101] (worker_start [payload_task_1; "5"])) in
  exists e st',
    exn_cls e = TypeError
    /\ worker_loop (H := sample_python) sample_worker
         [Pass false 200 201; Pass false 300 301] st = (Raised e, st')
    /\ setex_log st' = setex_log st.
Proof.
  intros st.
  destruct (non_object_payload_stops_worker (H := sample_python) sample_worker
              (Pass false 200 201) [Pass false 300 301] st "5" [] (JInt 5) (JInt 1))
    as (e & Hcls & Hrun).
  - reflexivity.
  - reflexivity.
  - reflexivity.
  - intros fields. discriminate.
  - reflexivity.
  - exists e. eexists. split; [exact Hcls|]. split; [exact Hrun|]. reflexivity.
Defined.

(** ** quick_sentiment.py *)

Lemma lowercase_same_up_to_case (text lowered : string) :
  lowercase text lowered -> same_up_to_case text lowered.
Proof.
  induction 1 as [|c c' text lowered Hc _ IH]; constructor; [|exact IH].
  destruct Hc as [Hpair | [_ ->]]; auto.
Qed.

(** X7. [analyze_sentiment] does not depend on the case of the letters: a
    text and its lowercase form get the same answer, and so do any two texts
    that differ only in that some letters are capitals in one and small in
    the other. *)
Theorem analyze_sentiment_ignores_case (s1 s2 : string) :
  lowercase s1 s2 \/ same_up_to_case s1 s2 ->
  analyze_sentiment (JStr s1) = analyze_sentiment (JStr s2).
Proof.
  intros Hsame.
  assert (Hcase : same_up_to_case s1 s2).
  { destruct Hsame as [Hlower | Hsame];
      [apply lowercase_same_up_to_case; exact Hlower | exact Hsame]. }
  unfold analyze_sentiment. simpl.
  rewrite (lower_same_up_to_case s1 s2 Hcase). reflexivity.
Qed.

(** X7 on [It was GREAT] and [it was Great]. *)
Lemma analyze_sentiment_ignores_case_witness :
  analyze_sentiment (JStr "It was GREAT") = analyze_sentiment (JStr "it was Great")
  /\ analyze_sentiment (JStr "It was GREAT")
     = Ok (JObj [("sentiment", JStr "positive"); ("confidence", JFloat 0.90)]).
Proof.
  split; [|reflexivity].
  apply analyze_sentiment_ignores_case. right.
  repeat (constructor;
          [first [ left; reflexivity
                 | right; left; in_case_pairs
                 | right; right; in_case_pairs ]|]).
  constructor.
Defined.

(** X8. [analyze_sentiment] answers every string, and its confidence takes
    four values only: 0.60 for [neutral], and 0.90, 0.95 or 0.99 for
    [positive] and [negative]. The base value 0.85 is never returned, since
    the winning count is at least 1. *)
Theorem confidence_levels (s : string) :
  exists sentiment confidence,
    analyze_sentiment (JStr s)
    = Ok (JObj [("sentiment", JStr sentiment); ("confidence", JFloat confidence)])
    /\ ((sentiment = "neutral" /\ confidence = 0.60%float)
        \/ ((sentiment = "positive" \/ sentiment = "negative")
            /\ (confidence = 0.90%float \/ confidence = 0.95%float
                \/ confidence = 0.99%float))).
Proof.
  pose proof (count_words_range positive_words (lower s)) as Hp.
  pose proof (count_words_range negative_words (lower s)) as Hn.
  change (Z.of_nat (List.length positive_words)) with 10 in Hp.
  change (Z.of_nat (List.length negative_words)) with 10 in Hn.
  unfold analyze_sentiment; simpl.
  set (positive_count := count_words positive_words (lower s)) in *.
  set (negative_count := count_words negative_words (lower s)) in *.
  assert (Hlevels : forall count, 1 <= count <= 10 ->
            keyword_confidence count = 0.90%float
            \/ keyword_confidence count = 0.95%float
            \/ keyword_confidence count = 0.99%float).
  { intros count Hc.
    assert (Hcases : count = 1 \/ count = 2 \/ count = 3 \/ count = 4
                     \/ count = 5 \/ count = 6 \/ count = 7 \/ count = 8
                     \/ count = 9 \/ count = 10) by lia.
    repeat (destruct Hcases as [-> | Hcases]); try subst count;
      vm_compute; auto. }
  destruct (negative_count <? positive_count) eqn:Hpos;
    [| destruct (positive_count <? negative_count) eqn:Hneg];
    do 2 eexists; (split; [reflexivity|]).
  - apply Z.ltb_lt in Hpos. right. split; [left; reflexivity|].
    apply Hlevels. lia.
  - apply Z.ltb_lt in Hneg. right. split; [right; reflexivity|].
    apply Hlevels. lia.
  - left. split; reflexivity.
Qed.

Section Mains.

Context `{Python} `{Sklearn}.

(** X9. quick_sentiment.py on an argument that decodes to an object: it
    prints one document and makes no model call. Without [text] the document
    is the error about the missing field; for a [text] that is empty in
    Python's sense, or a string of white space, [Text cannot be empty]; for a
    non-empty [text] that is not a string, the message of the
    [AttributeError] on [strip]; all of these with exit code 1. Otherwise it
    is the answer of [analyze_sentiment], with exit code 0. *)
Theorem quick_sentiment_main_contract (script_path arg : string)
  (fields : list (string * json)) :
  json_loads arg = Ok (JObj fields) ->
  exists doc code,
    run_main (quick_sentiment_main [script_path; arg]) = Outcome [doc] [] code None
    /\ let rejected message :=
         doc = JObj [("error", JStr message)] /\ code = 1 in
       match assoc "text" fields with
       | None => rejected ("Missing " ++ dquote ++ "text" ++ dquote ++ " field")
       | Some text =>
           if negb (truthy text) then rejected "Text cannot be empty"
           else
             match text with
             | JStr s =>
                 if all_space s then rejected "Text cannot be empty"
                 else analyze_sentiment text = Ok doc /\ code = 0
             | _ => rejected (exn_msg (no_attribute text "strip"))
             end
       end.
Proof.
  intros Hloads.
  unfold run_main, quick_sentiment_main, argv1. unfold_prog. simpl.
  rewrite Hloads. simpl.
  destruct (assoc "text" fields) as [text|] eqn:Htext; simpl;
    [|do 2 eexists; split; [reflexivity | split; reflexivity]].
  destruct (truthy text) eqn:Htruthy; simpl;
    [|do 2 eexists; split; [reflexivity | split; reflexivity]].
  destruct text; simpl;
    try (do 2 eexists; split; [reflexivity | split; reflexivity]).
  destruct (all_space s); simpl;
    [do 2 eexists; split; [reflexivity | split; reflexivity]|].
  assert (Hresult : exists result, analyze_sentiment (JStr s) = Ok result).
  { unfold analyze_sentiment. simpl. repeat case_step; eexists; reflexivity. }
  destruct Hresult as [result ->]. simpl.
  do 2 eexists. split; [reflexivity | split; reflexivity].
Qed.


(** *** process.py *)

Lemma process_batch_spec (users : list json) :
  match process_batch users with
  | Ok results => Forall2 (fun user r => process_user_data user = Ok r) users results
  | Raise e =>
      exists before user after,
        users = (before ++ user :: after)%list
        /\ Forall (fun u => exists r, process_user_data u = Ok r) before
        /\ process_user_data user = Raise e
  end.
Proof.
  induction users as [|user rest IH]; simpl.
  - constructor.
  - destruct (process_user_data user) as [r | e] eqn:Huser; simpl.
    + destruct (process_batch rest) as [rs | e]; simpl.
      * constructor; assumption.
      * destruct IH as (before & u & after & -> & Hbefore & Hu).
        exists (user :: before), u, after. repeat split; [|exact Hu].
        constructor; [eexists; exact Huser | exact Hbefore].
    + exists [], user, rest. repeat split; [constructor | exact Huser].
Qed.

(** X11. process.py on an array of users is all or nothing: it prints either
    one array with the result of [process_user_data] for every user, in
    order, and exits with 0, or only the error document of the first user
    that fails (message and class of its exception) and exits with 1; the
    results of the users before that one are not printed. *)
Theorem process_main_batch_all_or_nothing (script_path arg : string)
  (users : list json) :
  json_loads arg = Ok (JArr users) ->
  let o := run_main (process_main [script_path; arg]) in
  made_calls o = [] /\ traceback o = None
  /\ ((exists results,
         printed o = [JArr results] /\ exit_code o = 0
         /\ Forall2 (fun user r => process_user_data user = Ok r) users results)
      \/ (exists e before user after,
            printed o = [JObj [("error", JStr (exn_msg e));
                               ("type", JStr (class_name (exn_cls e)))]]
            /\ exit_code o = 1
            /\ users = (before ++ user :: after)%list
            /\ Forall (fun u => exists r, process_user_data u = Ok r) before
            /\ process_user_data user = Raise e)).
Proof.
  intros Hloads o. subst o.
  pose proof (process_batch_spec users) as Hbatch.
  unfold run_main, process_main, report_with_type, argv1. unfold_prog. simpl.
  rewrite Hloads. simpl.
  destruct (process_batch users) as [results | e]; simpl.
  - repeat split. left. exists results. repeat split. exact Hbatch.
  - repeat split. right.
    destruct Hbatch as (before & user & after & Husers & Hbefore & Huser).
    exists e, before, user, after. repeat split; assumption.
Qed.

(** X12. process.py without an argument reports the [ValueError]
    [No input data provided]; on an argument that decodes to a JSON value
    that is neither an object nor an array it reports the [ValueError]
    [Input must be object or array]. Both with the [type] tag and exit
    code 1. *)
Theorem process_main_input_errors (script_path arg : string) (doc : json) :
  json_loads arg = Ok doc ->
  (forall fields, doc <> JObj fields) ->
  (forall users, doc <> JArr users) ->
  let rejected message :=
    Outcome [JObj [("error", JStr message); ("type", JStr "ValueError")]] [] 1 None in
  run_main (process_main [script_path]) = rejected "No input data provided"
  /\ run_main (process_main [script_path; arg])
     = rejected "Input must be object or array".
Proof.
  intros Hloads Hobject Harray rejected. split; [reflexivity|].
  unfold run_main, process_main, report_with_type, argv1. unfold_prog. simpl.
  rewrite Hloads.
  destruct doc; simpl; try reflexivity.
  - exfalso. eapply Harray. reflexivity.
  - exfalso. eapply Hobject. reflexivity.
Qed.

(** X13. The document of [process_user_data] for a user whose purchases form
    a list with a total: [user_id] and [name] are taken from the user ([null]
    and [Unknown] when absent), [total_purchases] is the number of purchases,
    [total_spent] the rounded total, and [avg_purchase_value] the rounded
    quotient of the two. For a user without purchases the average is 0 and no
    division takes place; otherwise the function fails exactly when the
    division does. *)
Theorem process_user_data_metrics (fields : list (string * json))
  (purchases : list json) (total_spent : number) :
  py_get (JObj fields) "purchases" (JArr []) = Ok (JArr purchases) ->
  sum_amounts (NInt 0) purchases = Ok total_spent ->
  let n_purchases := Z.of_nat (List.length purchases) in
  let default key value :=
    match assoc key fields with Some x => x | None => value end in
  let document avg_purchase :=
    JObj [("user_id", default "id" JNull);
          ("name", default "name" (JStr "Unknown"));
          ("segment", JStr (classify_segment total_spent n_purchases));
          ("metrics",
            JObj [("total_purchases", JInt n_purchases);
                  ("total_spent", number_json (py_round2 total_spent));
                  ("avg_purchase_value", number_json (py_round2 avg_purchase))]);
          ("recommendations",
            JArr (map JStr (generate_recommendations
                              (classify_segment total_spent n_purchases))))] in
  process_user_data (JObj fields)
  = match purchases with
    | [] => Ok (document (NInt 0))
    | _ :: _ =>
        match py_truediv total_spent n_purchases with
        | Ok avg_purchase => Ok (document avg_purchase)
        | Raise e => Raise e
        end
    end.
Proof.
  intros Hpurchases Hsum n_purchases default document.
  unfold process_user_data.
  rewrite Hpurchases. simpl. rewrite Hsum. simpl.
  destruct purchases as [|p rest]; simpl; [reflexivity|].
  fold n_purchases.
  destruct (py_truediv total_spent _); reflexivity.
Qed.

End Mains.

(** X9 on the text [great]. *)
Lemma quick_sentiment_main_contract_witness :
  run_main (quick_sentiment_main (H := sample_python)
              ["quick_sentiment.py"; "{" ++ quoted "text" ++ ": " ++ quoted "great" ++ "}"])
  = Outcome [JObj [("sentiment", JStr "positive"); ("confidence", JFloat 0.90)]]
            [] 0 None.
Proof.
  destruct (quick_sentiment_main_contract (H := sample_python) "quick_sentiment.py"
              ("{" ++ quoted "text" ++ ": " ++ quoted "great" ++ "}")
              [("text", JStr "great")] eq_refl)
    as (doc & code & Hrun & Hdoc & Hcode).
  rewrite Hrun. vm_compute in Hdoc. injection Hdoc as <-. rewrite Hcode.
  reflexivity.
Defined.


(** X11 on the array [[{}, 5]]: the second user is not an object. *)
Lemma process_main_batch_all_or_nothing_witness :
  let o := run_main (process_main (H := more_python) ["process.py"; "[{}, 5]"]) in
  exit_code o = 1
  /\ printed o = [JObj [("error", JStr "'int' object has no attribute 'get'");
                        ("type", JStr "AttributeError")]].
Proof.
  destruct (process_main_batch_all_or_nothing (H := more_python) "process.py"
              "[{}, 5]" [JObj []; JInt 5] eq_refl)
    as (_ & _ & Hcases).
  split; reflexivity.
Defined.

(** X12 on the argument [5]. *)
Lemma process_main_input_errors_witness :
  run_main (process_main (H := sample_python) ["process.py"; "5"])
  = Outcome [JObj [("error", JStr "Input must be object or array");
                   ("type", JStr "ValueError")]] [] 1 None.
Proof.
  destruct (process_main_input_errors (H := sample_python) "process.py" "5" (JInt 5)
              eq_refl) as [_ Hrun].
  - intros fields. discriminate.
  - intros users. discriminate.
  - exact Hrun.
Defined.

(** X13 on the sample user: three purchases worth 650. *)
Lemma process_user_data_metrics_witness :
  exists result,
    process_user_data (H := sample_python) (JObj sample_user) = Ok (JObj result)
    /\ assoc "metrics" result
       = Some (JObj [("total_purchases", JInt 3);
                     ("total_spent", JInt 650);
                     ("avg_purchase_value", JFloat (650 / 3))]).
Proof.
  pose proof (process_user_data_metrics (H := sample_python) sample_user
                sample_purchases (NInt 650) eq_refl eq_refl) as Hrun.
  eexists. split; [exact Hrun | reflexivity].
Defined.

(** ** predict.py *)

Section PredictMore.

Context `{Python} `{Sklearn}.

(** X14. Whatever the arguments, the calls predict.py makes into the model
    form a prefix of: load the model, transform the one text, predict,
    predict_proba. The model is loaded at most once, never after a
    prediction call, and only one text is ever transformed. *)
Theorem predict_main_call_order (argv : list string) :
  exists text n,
    made_calls (run_main (predict_main argv))
    = firstn n [CallLoadModel; CallTransform [text]; CallPredict; CallPredictProba].
Proof.
  unfold run_main, predict_main, report_with_type, load_model, predict_sentiment.
  unfold_prog. simpl.
  repeat case_step;
    first [ exists JNull, 0%nat; reflexivity
          | exists JNull, 1%nat; reflexivity
          | eexists; exists 2%nat; reflexivity
          | eexists; exists 3%nat; reflexivity
          | eexists; exists 4%nat; reflexivity ].
Qed.

(** X15. When the input of predict.py has a non-empty [text] and one of the
    two pickles is missing, the script reports a [FileNotFoundError] that
    tells to run train_model.py, with exit code 1, and makes no prediction
    call. *)
Theorem predict_main_model_files_missing (script_path arg : string)
  (more : list string) (doc text : json) :
  json_loads arg = Ok doc ->
  py_get doc "text" (JStr "") = Ok text ->
  truthy text = true ->
  model_path_exists && vectorizer_path_exists = false ->
  run_main (predict_main (script_path :: arg :: more))
  = Outcome [JObj [("error",
                     JStr "Model files not found in models. Run train_model.py first.");
                   ("type", JStr "FileNotFoundError")]]
            [CallLoadModel] 1 None.
Proof.
  intros Hloads Htext Htruthy Hfiles.
  unfold run_main, predict_main, report_with_type, load_model, argv1.
  unfold_prog. simpl. rewrite Hloads. simpl. rewrite Htext. simpl.
  rewrite Htruthy. simpl.
  destruct model_path_exists, vectorizer_path_exists; try discriminate; reflexivity.
Qed.

(** X16. When both pickles load and the model answers, predict.py prints one
    document with the text as given, the first label the classifier
    predicted, the largest probability of the first row as confidence, and
    the scores of all classes; it exits with 0 after exactly the four model
    calls. *)
Theorem predict_main_success (script_path arg : string) (more : list string)
  (doc text label : json) (clf : classifier features) (vec : vectorizer features)
  (X : features) (labels : list json) (row : list float)
  (rows : list (list float)) (confidence : float) :
  json_loads arg = Ok doc ->
  py_get doc "text" (JStr "") = Ok text ->
  truthy text = true ->
  model_path_exists = true ->
  vectorizer_path_exists = true ->
  joblib_load_model = Ok clf ->
  joblib_load_vectorizer = Ok vec ->
  v_transform vec [text] = Ok X ->
  c_predict clf X = Ok (label :: labels) ->
  c_predict_proba clf X = Ok (row :: rows) ->
  row_max row = Ok confidence ->
  run_main (predict_main (script_path :: arg :: more))
  = Outcome [JObj [("text", text);
                   ("sentiment", label);
                   ("confidence", JFloat confidence);
                   ("all_scores", confidence_scores (c_classes clf) row)]]
            [CallLoadModel; CallTransform [text]; CallPredict; CallPredictProba]
            0 None.
Proof.
  intros Hloads Htext Htruthy Hmodel Hvectorizer Hclf Hvec HX Hlabels Hrows Hmax.
  unfold run_main, predict_main, report_with_type, load_model, predict_sentiment,
    argv1.
  unfold_prog. simpl. rewrite Hloads. simpl. rewrite Htext. simpl.
  rewrite Htruthy, Hmodel, Hvectorizer. simpl. rewrite Hclf. simpl.
  rewrite Hvec. simpl. rewrite HX. simpl. rewrite Hlabels. simpl.
  rewrite Hrows. simpl. rewrite Hmax. reflexivity.
Qed.

End PredictMore.

Lemma assoc_set_fold_other (c : string) (pairs : list (string * float))
  (d : list (string * json)) :
  ~ In c (map fst pairs) ->
  assoc c (fold_left (fun d cp => assoc_set (fst cp) (JFloat (snd cp)) d) pairs d)
  = assoc c d.
Proof.
  revert d. induction pairs as [|[k p] pairs IH]; intros d Hnot; simpl.
  - reflexivity.
  - rewrite IH.
    + apply assoc_set_other. intros ->. apply Hnot. left. reflexivity.
    + intros Hin. apply Hnot. right. exact Hin.
Qed.

(** X17. [all_scores] maps every class to the probability at the same
    position, provided no class occurs twice. *)
Theorem all_scores_lookup (classes : list string) (probabilities : list float)
  (i : nat) (c : string) (p : float) :
  List.NoDup classes ->
  nth_error classes i = Some c ->
  nth_error probabilities i = Some p ->
  exists scores,
    confidence_scores classes probabilities = JObj scores
    /\ assoc c scores = Some (JFloat p).
Proof.
  intros Hnodup Hc Hp. unfold confidence_scores. eexists. split; [reflexivity|].
  generalize (@nil (string * json)) as d.
  revert probabilities i Hc Hp.
  induction classes as [|k classes IH]; intros probabilities i Hc Hp d.
  - destruct i; discriminate.
  - apply List.NoDup_cons_iff in Hnodup. destruct Hnodup as [Hnotin Hrest].
    destruct probabilities as [|q probabilities]; [destruct i; discriminate|].
    destruct i as [|i]; simpl in *.
    + injection Hc as ->. injection Hp as ->.
      rewrite assoc_set_fold_other.
      * apply assoc_set_same.
      * intros Hin. apply Hnotin.
        apply in_map_iff in Hin. destruct Hin as ([k' q'] & Hk & Hin).
        simpl in Hk. subst k'.
        apply in_combine_l in Hin. exact Hin.
    + apply (IH Hrest probabilities i Hc Hp).
Qed.

(** X15 on an installation without the pickle of the vectorizer. *)
Lemma predict_main_model_files_missing_witness :
  let o := run_main (predict_main (H := sample_python) (H0 := sklearn_without_vectorizer)
                       ["predict.py"; "{" ++ quoted "text" ++ ": " ++ quoted "great" ++ "}"]) in
  made_calls o = [CallLoadModel] /\ exit_code o = 1.
Proof.
  intros o. subst o.
  rewrite (predict_main_model_files_missing (H := sample_python)
             (H0 := sklearn_without_vectorizer) "predict.py"
             ("{" ++ quoted "text" ++ ": " ++ quoted "great" ++ "}") []
             (JObj [("text", JStr "great")]) (JStr "great")
             eq_refl eq_refl eq_refl eq_refl).
  split; reflexivity.
Defined.

(** X16 on the text [great] and the toy model. *)
Lemma predict_main_success_witness :
  run_main (predict_main (H := sample_python) (H0 := sample_sklearn)
              ["predict.py"; "{" ++ quoted "text" ++ ": " ++ quoted "great" ++ "}"])
  = Outcome [JObj [("text", JStr "great");
                   ("sentiment", JStr "negative");
                   ("confidence", JFloat 0.75);
                   ("all_scores",
                     JObj [("negative", JFloat 0.75); ("positive", JFloat 0.25)])]]
            [CallLoadModel; CallTransform [JStr "great"]; CallPredict;
             CallPredictProba] 0 None.
Proof.
  exact (predict_main_success (H := sample_python) (H0 := sample_sklearn)
           "predict.py" ("{" ++ quoted "text" ++ ": " ++ quoted "great" ++ "}") []
           (JObj [("text", JStr "great")]) (JStr "great") (JStr "negative")
           toy_classifier toy_vectorizer [JStr "great"] [] [0.75; 0.25]%float []
           0.75%float
           eq_refl eq_refl eq_refl eq_refl eq_refl eq_refl eq_refl eq_refl eq_refl
           eq_refl eq_refl).
Defined.

(** X17 on two classes. *)
Lemma all_scores_lookup_witness :
  exists scores,
    confidence_scores ["negative"; "positive"] [0.25; 0.75]%float = JObj scores
    /\ assoc "positive" scores = Some (JFloat 0.75).
Proof.
  apply (all_scores_lookup ["negative"; "positive"] [0.25; 0.75]%float 1).
  - repeat constructor; simpl; intuition discriminate.
  - reflexivity.
  - reflexivity.
Defined.

(** ** flask_server.py *)

Section FlaskMore.

Context `{Python} `{Sklearn}.

(** X18. [load_models()], run on the freshly imported module: when it
    returns, the pickle of the model exists, both globals hold what
    [joblib.load] returned, and [GET /health] answers 200 with
    [model_loaded] true. When it raises, the vectorizer is still [None]; a
    missing pickle of the model gives [FileNotFoundError] with both globals
    untouched, and otherwise the exception is the one of a [joblib.load]:
    when loading the vectorizer fails, the classifier has already been
    set. *)
Theorem load_models_contract :
  match load_models unloaded with
  | (Done _, srv) =>
      model_path_exists = true
      /\ (exists clf vec,
            joblib_load_model = Ok clf /\ joblib_load_vectorizer = Ok vec
            /\ srv = Server (Some clf) (Some vec))
      /\ health_check srv
         = Response (JObj [("status", JStr "healthy");
                           ("model_loaded", JBool true)]) 200
  | (Raised e, srv) =>
      srv_vectorizer srv = None
      /\ (model_path_exists = false ->
          exn_cls e = FileNotFoundError /\ srv = unloaded)
      /\ (model_path_exists = true ->
          joblib_load_model = Raise e
          \/ (exists clf, joblib_load_model = Ok clf
                          /\ joblib_load_vectorizer = Raise e
                          /\ srv = Server (Some clf) None))
  | (SystemExit _, _) | (KeyboardInterrupt, _) => False
  end.
Proof.
  unfold load_models, set_classifier, set_vectorizer, unloaded, health_check.
  unfold_prog.
  destruct model_path_exists; simpl.
  - destruct joblib_load_model as [clf | e]; simpl.
    + destruct joblib_load_vectorizer as [vec | e]; simpl.
      * split; [reflexivity|]. split; [|reflexivity].
        exists clf, vec. repeat split.
      * split; [reflexivity|]. split; [discriminate|].
        intros _. right. exists clf. repeat split.
    + split; [reflexivity|]. split; [discriminate|].
      intros _. left. reflexivity.
  - split; [reflexivity|]. split; [|discriminate].
    intros _. split; reflexivity.
Qed.

(** X19. While the vectorizer has not been loaded, a valid request is not
    refused: [POST /predict] with a non-blank text and [POST /predict/batch]
    with an array both answer 500 with the message of the [AttributeError] on
    [None], and no model call is made. *)
Theorem requests_before_load_models (srv : server)
  (fields batch : list (string * json)) (s : string) (items : list json) :
  srv_vectorizer srv = None ->
  assoc "text" fields = Some (JStr s) ->
  all_space s = false ->
  assoc "texts" batch = Some (JArr items) ->
  let answer :=
    (Done (error_response "'NoneType' object has no attribute 'transform'" 500),
     @nil call) in
  serve (predict srv (Ok (JObj fields))) = answer
  /\ serve (predict_batch srv (Ok (JObj batch))) = answer.
Proof.
  intros Hvec Htext Hspace Htexts answer. subst answer.
  assert (Hs : negb (s =? "")%string = true).
  { destruct s; [discriminate | reflexivity]. }
  unfold serve, predict, predict_batch, srv_transform, srv_predict,
    srv_predict_proba, srv_classes, error_response.
  unfold_prog. simpl. rewrite !lacks_key_object.
  unfold py_getitem. rewrite Htext, Htexts, Hvec. simpl.
  rewrite Hs. simpl. rewrite Hspace. simpl. split; reflexivity.
Qed.

Lemma batch_results_in_order (items predictions : list json)
  (probabilities : list (list float)) (results : list json) :
  batch_results items predictions probabilities = Ok results ->
  (List.length results <= List.length items)%nat
  /\ Forall2 (fun text r =>
                exists label confidence,
                  r = JObj [("text", text); ("sentiment", label);
                            ("confidence", JFloat confidence)])
             (firstn (List.length results) items) results.
Proof.
  revert predictions probabilities results.
  induction items as [|text items IH]; intros predictions probabilities results;
    simpl.
  - intros [= <-]. split; [reflexivity | constructor].
  - destruct predictions as [|label predictions];
      [intros [= <-]; split; [simpl; lia | constructor]|].
    destruct probabilities as [|row probabilities];
      [intros [= <-]; split; [simpl; lia | constructor]|].
    destruct (row_max row) as [confidence | e]; simpl; [|discriminate].
    destruct (batch_results items predictions probabilities) as [rest | e] eqn:Hrest;
      simpl; [|discriminate].
    intros [= <-]. destruct (IH _ _ _ Hrest) as [Hlen Hall].
    split; [simpl; lia|]. simpl. constructor; [|exact Hall].
    do 2 eexists. reflexivity.
Qed.

(** X20. A [POST /predict/batch] that answers 200 has made exactly three
    model calls (one transform of all the texts, one predict, one
    predict_proba), and its [predictions] are, in the order of the request,
    documents with the text at the same position; there are never more
    predictions than texts. *)
Theorem batch_answers_in_request_order (srv : server)
  (fields : list (string * json)) (items : list json) (body : json)
  (log : list call) :
  assoc "texts" fields = Some (JArr items) ->
  serve (predict_batch srv (Ok (JObj fields))) = (Done (Response body 200), log) ->
  log = [CallTransform items; CallPredict; CallPredictProba]
  /\ exists results,
       body = JObj [("predictions", JArr results)]
       /\ (List.length results <= List.length items)%nat
       /\ Forall2 (fun text r =>
                     exists label confidence,
                       r = JObj [("text", text); ("sentiment", label);
                                 ("confidence", JFloat confidence)])
                  (firstn (List.length results) items) results.
Proof.
  intros Htexts.
  unfold serve, predict_batch, srv_transform, srv_predict, srv_predict_proba,
    error_response.
  unfold_prog. simpl. rewrite lacks_key_object.
  unfold py_getitem. rewrite Htexts. simpl.
  destruct (srv_vectorizer srv) as [vec|]; simpl; [|discriminate].
  destruct (v_transform vec items) as [X | e]; simpl; [|discriminate].
  destruct (srv_classifier srv) as [clf|]; simpl; [|discriminate].
  destruct (c_predict clf X) as [predictions | e]; simpl; [|discriminate].
  destruct (c_predict_proba clf X) as [probabilities | e]; simpl; [|discriminate].
  destruct (batch_results items predictions probabilities) as [results | e]
    eqn:Hresults; simpl; [|discriminate].
  intros [= <- <-]. split; [reflexivity|].
  exists results. split; [reflexivity|].
  apply (batch_results_in_order _ _ _ _ Hresults).
Qed.

(** X21. On a non-blank text, [POST /predict] of a server with both models
    loaded answers 200 with exactly the document predict.py's
    [predict_sentiment] returns for that text, after the same model calls;
    when [predict_sentiment] raises, the server answers 500 with the message
    of that exception. *)
Theorem rest_agrees_with_script (clf : classifier features)
  (vec : vectorizer features) (fields : list (string * json)) (s : string) :
  assoc "text" fields = Some (JStr s) ->
  all_space s = false ->
  let answer := serve (predict (Server (Some clf) (Some vec)) (Ok (JObj fields))) in
  match predict_sentiment (JStr s) clf vec (World [] []) with
  | (Done doc, w) => answer = (Done (Response doc 200), calls w)
  | (Raised e, w) => answer = (Done (error_response (exn_msg e) 500), calls w)
  | (SystemExit _, _) | (KeyboardInterrupt, _) => False
  end.
Proof.
  intros Htext Hspace answer. subst answer.
  assert (Hs : negb (s =? "")%string = true).
  { destruct s; [discriminate | reflexivity]. }
  unfold serve, predict, predict_sentiment, srv_transform, srv_predict,
    srv_predict_proba, srv_classes, error_response.
  unfold_prog. simpl. rewrite lacks_key_object.
  unfold py_getitem. rewrite Htext. simpl. rewrite Hs. simpl. rewrite Hspace. simpl.
  destruct (v_transform vec [JStr s]) as [X | e]; simpl; [|reflexivity].
  destruct (c_predict clf X) as [predictions | e]; simpl; [|reflexivity].
  destruct (first_item predictions) as [prediction | e]; simpl; [|reflexivity].
  destruct (c_predict_proba clf X) as [rows | e]; simpl; [|reflexivity].
  destruct (first_item rows) as [row | e]; simpl; [|reflexivity].
  destruct (row_max row) as [confidence | e]; simpl; reflexivity.
Qed.

End FlaskMore.

(** X19 on the module as imported. *)
Lemma requests_before_load_models_witness :
  serve (predict (H0 := sample_sklearn) (unloaded (H0 := sample_sklearn))
           (Ok (JObj [("text", JStr "great")])))
  = (Done (error_response "'NoneType' object has no attribute 'transform'" 500), []).
Proof.
  apply (requests_before_load_models (H0 := sample_sklearn)
           (unloaded (H0 := sample_sklearn))
           [("text", JStr "great")] [("texts", JArr [])] "great" []);
    reflexivity.
Defined.

(** X20 on two texts and the toy model. *)
Lemma batch_answers_in_request_order_witness :
  exists results,
    serve (predict_batch sample_server
             (Ok (JObj [("texts", JArr [JStr "good"; JStr "bad"])])))
    = (Done (Response (JObj [("predictions", JArr results)]) 200),
       [CallTransform [JStr "good"; JStr "bad"]; CallPredict; CallPredictProba])
    /\ List.length results = 2%nat.
Proof.
  destruct (batch_answers_in_request_order (H0 := sample_sklearn) sample_server
              [("texts", JArr [JStr "good"; JStr "bad"])] [JStr "good"; JStr "bad"]
              _ _ eq_refl eq_refl)
    as (_ & results & Hbody & _).
  injection Hbody as <-. eexists. split; reflexivity.
Defined.

(** X21 on the text [good value] and the toy model. *)
Lemma rest_agrees_with_script_witness :
  serve (predict sample_server (Ok (JObj [("text", JStr "good value")])))
  = (Done (Response (JObj [("text", JStr "good value");
                           ("sentiment", JStr "positive");
                           ("confidence", JFloat 0.75);
                           ("all_scores",
                             JObj [("negative", JFloat 0.25);
                                   ("positive", JFloat 0.75)])]) 200),
     [CallTransform [JStr "good value"]; CallPredict; CallPredictProba]).
Proof.
  exact (rest_agrees_with_script (H0 := sample_sklearn) toy_classifier
           toy_vectorizer [("text", JStr "good value")] "good value"
           eq_refl eq_refl).
Defined.

(** ** detect_opencv.py *)

Section OpenCvMore.

Context `{Python} `{Cv2}.

(** X22. The optional arguments of detect_opencv.py are converted outside
    any [try]: a scale factor that [float] rejects, or a neighbour count that
    [int] rejects, ends the script with a traceback and exit code 1, and
    nothing is printed. *)
Theorem detect_opencv_bad_number (script_path image_path scale neighbors : string)
  (more : list string) (e : exn) :
  py_float scale = Raise e
  \/ ((exists f, py_float scale = Ok f) /\ py_int neighbors = Raise e) ->
  run_main (detect_opencv_main (script_path :: image_path :: scale :: neighbors :: more))
  = Outcome [] [] 1 (Some (class_name (exn_cls e))).
Proof.
  intros Hbad.
  unfold run_main, detect_opencv_main. unfold_prog. simpl.
  destruct Hbad as [-> | [[f ->] ->]]; reflexivity.
Qed.

(** X23. [detect_faces] always returns an object, prints nothing and never
    raises. The object has [success] true exactly when the image was read and
    converted, the cascade was loaded and is not empty, and the detection
    returned; otherwise it has [success] false and an [error] message. *)
Theorem detect_faces_success_iff (image_path : string) (scale_factor : float)
  (min_neighbors : Z) (w : world) :
  exists fields,
    detect_faces image_path scale_factor min_neighbors w = (Done (JObj fields), w)
    /\ (assoc "success" fields = Some (JBool true)
        <-> exists img gray face_cascade faces,
              imread image_path = Ok (Some img)
              /\ cvtColor_gray img = Ok gray
              /\ CascadeClassifier = Ok face_cascade
              /\ cascade_empty face_cascade = false
              /\ detectMultiScale face_cascade gray scale_factor min_neighbors
                 = Ok faces)
    /\ (assoc "success" fields = Some (JBool true)
        \/ (assoc "success" fields = Some (JBool false)
            /\ exists message, assoc "error" fields = Some (JStr message))).
Proof.
  unfold detect_faces, failure. unfold_prog.
  destruct (imread image_path) as [[img|] | e] eqn:Himg; simpl.
  - destruct (cvtColor_gray img) as [gray | e] eqn:Hgray; simpl.
    + destruct CascadeClassifier as [face_cascade | e] eqn:Hcascade; simpl.
      * destruct (cascade_empty face_cascade) eqn:Hempty; simpl.
        -- eexists. split; [reflexivity|]. split; [|right; eauto].
           split; [discriminate|].
           intros (? & ? & ? & ? & _ & _ & [= <-] & Hne & _). congruence.
        -- destruct (detectMultiScale face_cascade gray scale_factor min_neighbors)
             as [faces | e] eqn:Hfaces; simpl.
           ++ eexists. split; [reflexivity|]. split; [|left; reflexivity].
              split; [|reflexivity]. intros _.
              exists img, gray, face_cascade, faces. auto.
           ++ eexists. split; [reflexivity|]. split; [|right; eauto].
              split; [discriminate|].
              intros (? & ? & ? & ? & [= <-] & Hg & [= <-] & _ & Hd).
              rewrite Hgray in Hg. injection Hg as <-. congruence.
      * eexists. split; [reflexivity|]. split; [|right; eauto].
        split; [discriminate|]. intros (? & ? & ? & ? & _ & _ & [=] & _).
    + eexists. split; [reflexivity|]. split; [|right; eauto].
      split; [discriminate|].
      intros (? & ? & ? & ? & [= <-] & Hg & _). congruence.
  - eexists. split; [reflexivity|]. split; [|right; eauto].
    split; [discriminate|]. intros (? & ? & ? & ? & [=] & _).
  - eexists. split; [reflexivity|]. split; [|right; eauto].
    split; [discriminate|]. intros (? & ? & ? & ? & [=] & _).
Qed.

End OpenCvMore.

(** X22 on the arguments [fast] and [many]. *)
Lemma detect_opencv_bad_number_witness :
  run_main (detect_opencv_main (H := sample_python) (H0 := sample_cv2)
              ["detect_opencv.py"; "photo.jpg"; "fast"; "5"])
  = Outcome [] [] 1 (Some "ValueError")
  /\ run_main (detect_opencv_main (H := sample_python) (H0 := sample_cv2)
                 ["detect_opencv.py"; "photo.jpg"; "1.1"; "many"])
     = Outcome [] [] 1 (Some "ValueError").
Proof.
  split.
  - apply (detect_opencv_bad_number (H := sample_python) (H0 := sample_cv2)
             "detect_opencv.py" "photo.jpg" "fast" "5" []
             (Exn ValueError "could not convert string to float: 'fast'")).
    left. reflexivity.
  - apply (detect_opencv_bad_number (H := sample_python) (H0 := sample_cv2)
             "detect_opencv.py" "photo.jpg" "1.1" "many" []
             (Exn ValueError "invalid literal for int() with base 10: 'many'")).
    right. split; [eexists; reflexivity | reflexivity].
Defined.

(** ** detect_yolo.py *)

Section YoloMore.

Context `{Python} `{Ultralytics}.



End YoloMore.


(** ** onnx_inference.py *)

(** X25. The indices onnx_inference.py selects, read off the classes ordered
    from the most to the least probable: the first [top_k] for a positive
    [top_k]; all of them for [top_k = 0]; all but the [-top_k] least probable
    for a negative [top_k]. *)
Theorem top_indices_spec (top_k : Z) (sorted : list nat) :
  let best_first := rev sorted in
  top_indices top_k sorted
  = if 0 <? top_k then firstn (Z.to_nat top_k) best_first
    else if top_k =? 0 then best_first
    else firstn (List.length sorted - Z.to_nat (- top_k)) best_first.
Proof.
  intros best_first. subst best_first. unfold top_indices, py_slice_from.
  rewrite !List.firstn_rev.
  destruct (0 <? top_k) eqn:Hpos; [|destruct (top_k =? 0) eqn:Hzero].
  - apply Z.ltb_lt in Hpos.
    replace (- top_k <? 0) with true by (symmetry; apply Z.ltb_lt; lia).
    f_equal. f_equal. lia.
  - apply Z.eqb_eq in Hzero. subst top_k.
    change (- 0 <? 0) with false. cbv iota.
    rewrite Z.min_l by lia. reflexivity.
  - apply Z.ltb_ge in Hpos. apply Z.eqb_neq in Hzero.
    replace (- top_k <? 0) with false by (symmetry; apply Z.ltb_ge; lia).
    f_equal. f_equal. lia.
Qed.

Lemma top_indices_length (top_k : Z) (sorted : list nat) :
  0 < top_k -> Z.of_nat (List.length (top_indices top_k sorted)) <= top_k.
Proof.
  intros Hk. unfold top_indices, py_slice_from.
  replace (- top_k <? 0) with true by (symmetry; apply Z.ltb_lt; lia).
  rewrite List.length_rev, List.length_skipn. lia.
Qed.

Section OnnxMore.

Context `{Python} `{Onnx}.

Lemma build_results_length (labels : json) (probabilities : array)
  (indices : list nat) (results : list json) :
  build_results labels probabilities indices = Ok results ->
  (List.length results <= List.length indices)%nat
  /\ Forall (fun r => exists label confidence,
                        r = JObj [("label", label);
                                  ("confidence", JFloat confidence)]) results.
Proof.
  revert results. induction indices as [|idx rest IH]; intros results; simpl.
  - intros [= <-]. split; [reflexivity | constructor].
  - destruct (py_len labels) as [n | e]; simpl; [|discriminate].
    destruct (Z.of_nat idx <? n).
    + destruct (label_at labels idx) as [label | e]; simpl; [|discriminate].
      destruct (np_item probabilities idx) as [confidence | e]; simpl;
        [|discriminate].
      destruct (build_results labels probabilities rest) as [tail | e]; simpl;
        [|discriminate].
      intros [= <-]. destruct (IH tail eq_refl) as [Hlen Hall].
      split; [simpl; lia|]. constructor; [|exact Hall]. do 2 eexists. reflexivity.
    + intros Hrest. destruct (IH results Hrest) as [Hlen Hall].
      split; [lia | exact Hall].
Qed.

(** X26. For a positive [top_k], [classify_image] returns at most [top_k]
    results, each an object with the keys [label] and [confidence]. *)
Theorem classify_image_at_most_top_k (model_path image_path labels_path : string)
  (top_k : Z) (results : list json) :
  0 < top_k ->
  classify_image model_path image_path labels_path top_k = Ok results ->
  Z.of_nat (List.length results) <= top_k
  /\ Forall (fun r => exists label confidence,
                        r = JObj [("label", label);
                                  ("confidence", JFloat confidence)]) results.
Proof.
  intros Hk. unfold classify_image, or_runtime_error.
  destruct (InferenceSession model_path) as [sess | e]; simpl; [|discriminate].
  destruct (preprocess_image image_path) as [input_data | e]; simpl; [|discriminate].
  destruct (first_input_name sess) as [input_name | e]; simpl; [|discriminate].
  destruct (run_first_output sess input_name input_data) as [predictions | e];
    simpl; [|discriminate].
  destruct (softmax predictions) as [probabilities | e]; simpl; [|discriminate].
  destruct (np_argsort probabilities) as [sorted | e]; simpl; [|discriminate].
  destruct (json_load_file labels_path) as [labels | e]; simpl; [|discriminate].
  intros Hresults. apply build_results_length in Hresults.
  destruct Hresults as [Hlen Hall]. split; [|exact Hall].
  pose proof (top_indices_length top_k sorted Hk). lia.
Qed.

(** X27. The failures of [classify_image], stage by stage and in this
    order: loading the model, opening the image, preparing the tensor,
    running the model and reading the labels raise [RuntimeError] with the
    name of the stage before the message of the cause; an image that cannot
    be opened gives
    [Failed to preprocess image: Failed to load image: <cause>]. Failures of
    the input name, of softmax and of argsort are passed on as they are. With
    no failure the answer is the list built from the labels. *)
Theorem classify_image_failures (model_path image_path labels_path : string)
  (top_k : Z) :
  let answer := classify_image model_path image_path labels_path top_k in
  match InferenceSession model_path with
  | Raise e => answer = Raise (runtime_error "Failed to load ONNX model" e)
  | Ok sess =>
      match open_rgb image_path with
      | Raise e =>
          answer
          = Raise (Exn (LibraryError "RuntimeError")
                       ("Failed to preprocess image: Failed to load image: "
                        ++ exn_msg e))
      | Ok img =>
          match normalize img with
          | Raise e => answer = Raise (runtime_error "Failed to preprocess image" e)
          | Ok input_data =>
              match first_input_name sess with
              | Raise e => answer = Raise e
              | Ok input_name =>
                  match run_first_output sess input_name input_data with
                  | Raise e => answer = Raise (runtime_error "Inference failed" e)
                  | Ok predictions =>
                      match softmax predictions with
                      | Raise e => answer = Raise e
                      | Ok probabilities =>
                          match np_argsort probabilities with
                          | Raise e => answer = Raise e
                          | Ok sorted =>
                              match json_load_file labels_path with
                              | Raise e =>
                                  answer
                                  = Raise (runtime_error "Failed to load labels" e)
                              | Ok labels =>
                                  answer
                                  = build_results labels probabilities
                                      (top_indices top_k sorted)
                              end
                          end
                      end
                  end
              end
          end
      end
  end.
Proof.
  intros answer. subst answer.
  unfold classify_image, preprocess_image, or_runtime_error, runtime_error.
  destruct (InferenceSession model_path) as [sess | e]; simpl; [|reflexivity].
  destruct (open_rgb image_path) as [img | e]; simpl; [|reflexivity].
  destruct (normalize img) as [input_data | e]; simpl; [|reflexivity].
  destruct (first_input_name sess) as [input_name | e]; simpl; [|reflexivity].
  destruct (run_first_output sess input_name input_data) as [predictions | e];
    simpl; [|reflexivity].
  destruct (softmax predictions) as [probabilities | e]; simpl; [|reflexivity].
  destruct (np_argsort probabilities) as [sorted | e]; simpl; [|reflexivity].
  destruct (json_load_file labels_path) as [labels | e]; simpl; reflexivity.
Qed.


End OnnxMore.

(** X26 on the toy runtime, three labels and [top_k = 2]. *)
Lemma classify_image_at_most_top_k_witness :
  classify_image (H0 := sample_onnx) "mobilenet.onnx" "cat.jpg" "labels.json" 2
  = Ok [JObj [("label", JStr "bird"); ("confidence", JFloat (1 / 3))];
        JObj [("label", JStr "dog"); ("confidence", JFloat (1 / 3))]]
  /\ Z.of_nat 2 <= 2.
Proof.
  split; [reflexivity|].
  apply (classify_image_at_most_top_k (H0 := sample_onnx)
           "mobilenet.onnx" "cat.jpg" "labels.json" 2 _ eq_refl eq_refl).
Defined.

(** ** train_prophet.py *)

Section ProphetMore.

Context `{Python} `{Prophet}.

(** X29. train_prophet.py prints exactly one document for every input and
    never ends with a traceback: with exit code 0 the document has [success]
    true and the [forecasts], with exit code 1 it has [success] false and an
    [error] message. *)
Theorem prophet_envelope (stdin : string) :
  let o := run_main (prophet_main stdin) in
  made_calls o = [] /\ traceback o = None
  /\ exists doc,
       printed o = [doc]
       /\ ((exit_code o = 0
            /\ exists rows,
                 doc = JObj [("success", JBool true);
                             ("forecasts", JArr (map forecast_document rows))])
           \/ (exit_code o = 1
               /\ exists message,
                    doc = JObj [("success", JBool false);
                                ("error", JStr message)])).
Proof.
  intros o. subst o. unfold run_main, prophet_main. unfold_prog.
  destruct (all_space stdin); simpl.
  - repeat split. eexists. split; [reflexivity|]. right. eauto.
  - destruct (load_data_from_json stdin) as [rows | e]; simpl.
    + destruct (forecast rows) as [forecast_rows | e]; simpl;
        repeat split; eexists; (split; [reflexivity|]); eauto.
    + repeat split. eexists. split; [reflexivity|]. right. eauto.
Qed.

Lemma prophet_rows_complete (records : list json) (rows : list (json * json)) :
  prophet_rows records = Ok rows ->
  Forall2 (fun record row =>
             exists fields month,
               record = JObj fields
               /\ assoc "month" fields = Some (JStr month)
               /\ assoc "revenue" fields = Some (snd row)
               /\ fst row = JStr (month ++ "-01"))
          records rows.
Proof.
  revert rows. induction records as [|record rest IH]; intros rows; simpl.
  - intros [= <-]. constructor.
  - destruct record; simpl; try discriminate.
    destruct (assoc "month" fields) as [month|] eqn:Hmonth; simpl; [|discriminate].
    destruct month; simpl; try discriminate.
    destruct (assoc "revenue" fields) as [revenue|] eqn:Hrevenue; simpl;
      [|discriminate].
    destruct (prophet_rows rest) as [tail | e]; simpl; [|discriminate].
    intros [= <-]. constructor; [|apply IH; reflexivity].
    exists fields, s. repeat split; assumption.
Qed.

(** X30. train_prophet.py exits with 0 only if the input is not blank,
    decodes to a sequence of objects that all have a string [month] and a
    [revenue], and the forecast on the rows [(month + -01, revenue)], in the
    order of the input, succeeded; it then prints the forecast rows. *)
Theorem prophet_trains_on_complete_records (stdin : string) :
  exit_code (run_main (prophet_main stdin)) = 0 ->
  all_space stdin = false
  /\ exists data records rows forecast_rows,
       json_loads stdin = Ok data
       /\ py_iter data = Ok records
       /\ Forall2 (fun record row =>
                     exists fields month,
                       record = JObj fields
                       /\ assoc "month" fields = Some (JStr month)
                       /\ assoc "revenue" fields = Some (snd row)
                       /\ fst row = JStr (month ++ "-01"))
                  records rows
       /\ forecast rows = Ok forecast_rows
       /\ printed (run_main (prophet_main stdin))
          = [JObj [("success", JBool true);
                   ("forecasts", JArr (map forecast_document forecast_rows))]].
Proof.
  unfold run_main, prophet_main, load_data_from_json. unfold_prog.
  destruct (all_space stdin); simpl; [discriminate|].
  destruct (json_loads stdin) as [data | e] eqn:Hloads; simpl; [|discriminate].
  destruct (py_iter data) as [records | e] eqn:Hiter; simpl; [|discriminate].
  destruct (prophet_rows records) as [rows | e] eqn:Hrows; simpl; [|discriminate].
  destruct (forecast rows) as [forecast_rows | e] eqn:Hforecast; simpl;
    [|discriminate].
  intros _. split; [reflexivity|].
  exists data, records, rows, forecast_rows.
  split; [reflexivity|]. split; [exact Hiter|].
  split; [apply prophet_rows_complete; exact Hrows|].
  split; [exact Hforecast | reflexivity].
Qed.

End ProphetMore.

(** X30 on one month of sales. *)
Lemma prophet_trains_on_complete_records_witness :
  printed (run_main (prophet_main (H := sales_python) (H0 := sample_prophet)
                       sales_json))
  = [JObj [("success", JBool true);
           ("forecasts",
             JArr [JObj [("month", JStr "2025-01");
                         ("forecast", JFloat 100);
                         ("lower_bound", JFloat 90);
                         ("upper_bound", JFloat 110);
                         ("method", JStr "Prophet")]])]].
Proof.
  destruct (prophet_trains_on_complete_records (H := sales_python)
              (H0 := sample_prophet) sales_json eq_refl)
    as (_ & data & records & rows & forecast_rows & _ & _ & _ & _ & Hprinted).
  reflexivity.
Defined.

(** ** The error envelope, script by script *)



Section EnvelopeByScript.

Context `{Python} `{Sklearn} `{Cv2} `{Onnx} `{Ultralytics} `{Prophet} `{Training}
  `{TensorFlow}.















End EnvelopeByScript.



